(** * dashbrr: the autobrr handlers and the route set-up

    A shallow embedding of [backend/api/handlers/autobrr.go] (package
    [handlers]) and of the rate-limiter part of [SetupRoutes] (package
    [routes]), with the properties of the read-through cache protocol
    proved over it.

    Conventions.
    - A Go [string] is a [string] (a sequence of bytes).
    - A [time.Duration] is a [Z] counting nanoseconds.
    - A Go [error] value is an [option error]: [None] is [nil].
    - A handler is a computation over the state of the cache store that
      also records, in order, every call it makes to a collaborator (cache,
      database, upstream adapter, logger, response writer, scheduler). *)

From Stdlib Require Import ZArith Lia.
From stdpp Require Import base strings list gmap.

Local Open Scope Z_scope.

(** ** Go values used by the handlers *)

(** Error values.  The handlers compare an error with the two sentinels of
    package [context] by identity ([err == context.DeadlineExceeded]) and
    read the message of every error ([err.Error()]).  [errorString] is the
    value built by [errors.New] and by [fmt.Errorf] on a constant format.
    [wrapError msg inner] is an error with the message [msg] whose [Unwrap]
    returns [inner]: what [fmt.Errorf] builds with the verb [%w], and what
    the HTTP client returns ([*url.Error]) when a request fails. *)
Inductive error : Type :=
| DeadlineExceeded
| Canceled
| errorString (s : string)
| wrapError (msg : string) (inner : error).

Definition Error (e : error) : string :=
  match e with
  | DeadlineExceeded => "context deadline exceeded"
  | Canceled => "context canceled"
  | errorString s => s
  | wrapError msg _ => msg
  end.

Global Instance error_eq_dec : EqDecision error.
Proof. solve_decision. Defined.

(** [errors.Is]: [err] or an error it wraps, at any depth, is [target]. *)
Fixpoint errors_Is (err target : error) : bool :=
  if decide (err = target) then true
  else match err with
       | wrapError _ inner => errors_Is inner target
       | _ => false
       end.

(** [time.Duration]: a count of nanoseconds. *)
Definition Duration : Type := Z.
Definition Nanosecond : Duration := 1.
Definition Microsecond : Duration := 1000 * Nanosecond.
Definition Millisecond : Duration := 1000 * Microsecond.
Definition Second : Duration := 1000 * Millisecond.
Definition Minute : Duration := 60 * Second.

(** Status codes of [net/http]. *)
Definition StatusOK : Z := 200.
Definition StatusBadRequest : Z := 400.
Definition StatusInternalServerError : Z := 500.
Definition StatusGatewayTimeout : Z := 504.

(** A slice is either [nil] or a (possibly empty) sequence of elements:
    [[]T{}] is [make_slice []], not [nil_slice]. *)
Inductive slice (A : Type) : Type :=
| nil_slice
| make_slice (elems : list A).
Arguments nil_slice {A}.
Arguments make_slice {A} elems.

(** ** Collaborators that live outside the handlers *)

(** The payload types of package [services/autobrr].  Their declarations are
    not part of the handlers; the handlers only build the zero value
    [autobrr.AutobrrStats{}] and move values around. *)
Class AutobrrTypes : Type := {
  AutobrrStats : Type;
  AutobrrStats_zero : AutobrrStats;
  IRCStatus : Type
}.

(** Modelled from the spec: the service record of the configuration store
    ([instanceId], [url], [apiKey]); the handlers read [URL] and [APIKey]. *)
Record ServiceConfiguration : Type := {
  InstanceID : string;
  URL : string;
  APIKey : string
}.

(** [database.DB]: [GetServiceByInstanceID] returns a pointer that may be
    [nil] together with an error. *)
Record DB : Type := {
  GetServiceByInstanceID : string -> option ServiceConfiguration * option error
}.

(** The query part of a request: the pairs [key=value] in the order they
    were sent. *)
Record gin_Context : Type := {
  query : list (string * string)
}.

(** [c.Query(key)]: the first value sent for [key], the empty string when
    there is none. *)
Fixpoint lookupQuery (key : string) (q : list (string * string)) : string :=
  match q with
  | [] => ""
  | (k, v) :: q' => if decide (k = key) then v else lookupQuery key q'
  end.

Definition Query (c : gin_Context) (key : string) : string :=
  lookupQuery key (query c).

Section Autobrr.
Context `{AutobrrTypes}.

(** The two types the handlers store in the cache. *)
Inductive PayloadKind : Type := KStats | KIRC.

Definition payload (k : PayloadKind) : Type :=
  match k with
  | KStats => AutobrrStats
  | KIRC => slice IRCStatus
  end.

(** [autobrr.AutobrrService]: the adapter of the upstream service.  Each
    method returns a value together with an error, as in Go. *)
Record AutobrrService : Type := {
  GetReleaseStats : string -> string -> AutobrrStats * option error;
  GetIRCStatus : string -> string -> slice IRCStatus * option error
}.

(** [cache.Store], as far as the handlers use it.  [S] is the state of the
    store.  [Get k key init s] decodes the entry under [key] into a
    variable of kind [k] that holds [init]; it returns what the variable
    holds afterwards, the error, and the new state of the store.
    [Set k key v ttl s] returns the error and the new state. *)
Class Store (S : Type) : Type := {
  Get : forall k : PayloadKind, string -> payload k -> S -> payload k * option error * S;
  Set_ : forall k : PayloadKind, string -> payload k -> Duration -> S -> option error * S
}.

(** ** Effects *)

Inductive Level : Type := LDebug | LWarn | LError.

(** The body handed to [c.JSON]. *)
Inductive Body : Type :=
| BStats (s : AutobrrStats)
| BIRC (s : slice IRCStatus)
| BError (msg : string).

(** A goroutine started by a handler. *)
Inductive Task : Type :=
| TRefreshStats (instanceId cacheKey : string)
| TRefreshIRC (instanceId cacheKey : string).

Inductive Event : Type :=
| ECacheGet (key : string)
| ECacheSet (k : PayloadKind) (key : string) (v : payload k) (ttl : Duration)
| EDbLookup (instanceId : string)
| EGetReleaseStats (url apiKey : string)
| EGetIRCStatus (url apiKey : string)
| ELog (lvl : Level) (err : option error) (instanceId : option string) (msg : string)
| EJSON (status : Z) (body : Body)
| EGo (t : Task).

(** A computation over the store state [S] that returns an [A] and the
    calls it made. *)
Definition M (S A : Type) : Type := S -> A * S * list Event.

Definition ret {S A} (a : A) : M S A := fun s => (a, s, []).

Definition bind {S A B} (m : M S A) (f : A -> M S B) : M S B :=
  fun s =>
    let '(a, s1, t1) := m s in
    let '(b, s2, t2) := f a s1 in
    (b, s2, t1 ++ t2).

Definition emit {S} (e : Event) : M S unit := fun s => (tt, s, [e]).

Definition result {S A} (r : A * S * list Event) : A := r.1.1.
Definition final {S A} (r : A * S * list Event) : S := r.1.2.
Definition events {S A} (r : A * S * list Event) : list Event := r.2.

End Autobrr.

Notation "x <- m ;; k" := (bind m (fun x => k))
  (at level 20, m at level 99, k at level 200, only parsing).
Notation "' pat <- m ;; k" := (bind m (fun x => match x with pat => k end))
  (at level 20, pat pattern, m at level 99, k at level 200, only parsing).
Notation "m ;; k" := (bind m (fun _ => k))
  (at level 100, k at level 200, only parsing, right associativity).

(** ** Package [handlers] *)

Module handlers.
Section Handlers.
Context `{AutobrrTypes} {S : Type} `{!Store S}.

(** The behaviour of the upstream service as the adapter sees it. *)
Variable service : AutobrrService.

Definition autobrrStatsCacheDuration : Duration := 10 * Second.
Definition autobrrIRCCacheDuration : Duration := 5 * Second.
Definition statsPrefix : string := "autobrr:stats:".
Definition ircPrefix : string := "autobrr:irc:".

(** [AutobrrHandler]: the field [cache] points to the shared store, whose
    state is the state of the computation. *)
Record AutobrrHandler : Type := {
  db : DB
}.

(** The calls to the collaborators, each recorded as it is made. *)
Definition cacheGet (k : PayloadKind) (key : string) (init : payload k)
  : M S (payload k * option error) :=
  fun s => let '(v, err, s') := Get k key init s in ((v, err), s', [ECacheGet key]).

Definition cacheSet (k : PayloadKind) (key : string) (v : payload k) (ttl : Duration)
  : M S (option error) :=
  fun s => let '(err, s') := Set_ k key v ttl s in (err, s', [ECacheSet k key v ttl]).

Definition dbGetServiceByInstanceID (h : AutobrrHandler) (instanceId : string)
  : M S (option ServiceConfiguration * option error) :=
  fun s => (GetServiceByInstanceID (db h) instanceId, s, [EDbLookup instanceId]).

Definition serviceGetReleaseStats (url apiKey : string)
  : M S (AutobrrStats * option error) :=
  fun s => (GetReleaseStats service url apiKey, s, [EGetReleaseStats url apiKey]).

Definition serviceGetIRCStatus (url apiKey : string)
  : M S (slice IRCStatus * option error) :=
  fun s => (GetIRCStatus service url apiKey, s, [EGetIRCStatus url apiKey]).

Definition log (lvl : Level) (err : option error) (instanceId : option string)
  (msg : string) : M S unit :=
  emit (ELog lvl err instanceId msg).

Definition JSON (status : Z) (body : Body) : M S unit :=
  emit (EJSON status body).

Definition go (t : Task) : M S unit := emit (EGo t).

Definition fetchAndCacheStats (h : AutobrrHandler) (instanceId cacheKey : string)
  : M S (AutobrrStats * option error) :=
  '(autobrrConfig, err) <- dbGetServiceByInstanceID h instanceId ;;
  match err with
  | Some e => ret (AutobrrStats_zero, Some e)
  | None =>
    match autobrrConfig with
    | None => ret (AutobrrStats_zero, Some (errorString "service not configured"))
    | Some cfg =>
      if decide (URL cfg = "") then
        ret (AutobrrStats_zero, Some (errorString "service not configured"))
      else
        '(stats, err) <- serviceGetReleaseStats (URL cfg) (APIKey cfg) ;;
        match err with
        | Some e => ret (AutobrrStats_zero, Some e)
        | None =>
          err <- cacheSet KStats cacheKey stats autobrrStatsCacheDuration ;;
          match err with
          | Some e =>
            log LWarn (Some e) (Some instanceId) "Failed to cache Autobrr release stats"
          | None => ret tt
          end ;;
          ret (stats, None)
        end
    end
  end.

Definition fetchAndCacheIRC (h : AutobrrHandler) (instanceId cacheKey : string)
  : M S (slice IRCStatus * option error) :=
  '(autobrrConfig, err) <- dbGetServiceByInstanceID h instanceId ;;
  match err with
  | Some e => ret (nil_slice, Some e)
  | None =>
    match autobrrConfig with
    | None => ret (nil_slice, Some (errorString "service not configured"))
    | Some cfg =>
      if decide (URL cfg = "") then
        ret (nil_slice, Some (errorString "service not configured"))
      else
        '(status, err) <- serviceGetIRCStatus (URL cfg) (APIKey cfg) ;;
        match err with
        | Some e => ret (nil_slice, Some e)
        | None =>
          err <- cacheSet KIRC cacheKey status autobrrIRCCacheDuration ;;
          match err with
          | Some e =>
            log LWarn (Some e) (Some instanceId) "Failed to cache Autobrr IRC status"
          | None => ret tt
          end ;;
          ret (status, None)
        end
    end
  end.

Definition refreshStatsCache (h : AutobrrHandler) (instanceId cacheKey : string)
  : M S unit :=
  '(_, err) <- fetchAndCacheStats h instanceId cacheKey ;;
  match err with
  | Some e =>
    if decide (Error e <> "service not configured") then
      log LError (Some e) (Some instanceId) "Failed to refresh Autobrr release stats cache"
    else
      log LDebug None (Some instanceId) "Successfully refreshed Autobrr release stats cache"
  | None =>
    log LDebug None (Some instanceId) "Successfully refreshed Autobrr release stats cache"
  end.

Definition refreshIRCCache (h : AutobrrHandler) (instanceId cacheKey : string)
  : M S unit :=
  '(_, err) <- fetchAndCacheIRC h instanceId cacheKey ;;
  match err with
  | Some e =>
    if decide (Error e <> "service not configured") then
      log LError (Some e) (Some instanceId) "Failed to refresh autobrr IRC status cache"
    else
      log LDebug None (Some instanceId) "Successfully refreshed autobrr IRC status cache"
  | None =>
    log LDebug None (Some instanceId) "Successfully refreshed autobrr IRC status cache"
  end.

(** What a goroutine started by a handler does once it is scheduled. *)
Definition runTask (h : AutobrrHandler) (t : Task) : M S unit :=
  match t with
  | TRefreshStats instanceId cacheKey => refreshStatsCache h instanceId cacheKey
  | TRefreshIRC instanceId cacheKey => refreshIRCCache h instanceId cacheKey
  end.

Definition GetAutobrrReleaseStats (h : AutobrrHandler) (c : gin_Context) : M S unit :=
  let instanceId := Query c "instanceId" in
  if decide (instanceId = "") then
    log LError None None "No instance ID provided" ;;
    JSON StatusBadRequest (BError "Instance ID is required")
  else
    let cacheKey := statsPrefix +:+ instanceId in
    '(stats, err) <- cacheGet KStats cacheKey AutobrrStats_zero ;;
    match err with
    | None =>
      log LDebug None (Some instanceId) "Serving Autobrr release stats from cache" ;;
      JSON StatusOK (BStats stats) ;;
      go (TRefreshStats instanceId cacheKey)
    | Some _ =>
      '(stats, err) <- fetchAndCacheStats h instanceId cacheKey ;;
      match err with
      | Some e =>
        if decide (Error e = "service not configured") then
          JSON StatusOK (BStats AutobrrStats_zero)
        else
          let status := StatusInternalServerError in
          status <-
            (if decide (e = DeadlineExceeded \/ e = Canceled) then
               let status := StatusGatewayTimeout in
               log LError (Some e) (Some instanceId)
                 "Request timeout while fetching Autobrr stats" ;;
               ret status
             else
               log LError (Some e) (Some instanceId) "Failed to fetch Autobrr stats" ;;
               ret status) ;;
          JSON status (BError (Error e))
      | None =>
        log LDebug None (Some instanceId)
          "Successfully retrieved and cached autobrr release stats" ;;
        JSON StatusOK (BStats stats)
      end
    end.

Definition GetAutobrrIRCStatus (h : AutobrrHandler) (c : gin_Context) : M S unit :=
  let instanceId := Query c "instanceId" in
  if decide (instanceId = "") then
    log LError None None "No instance ID provided" ;;
    JSON StatusBadRequest (BError "Instance ID is required")
  else
    let cacheKey := ircPrefix +:+ instanceId in
    '(status, err) <- cacheGet KIRC cacheKey nil_slice ;;
    match err with
    | None =>
      log LDebug None (Some instanceId) "Serving Autobrr IRC status from cache" ;;
      JSON StatusOK (BIRC status) ;;
      go (TRefreshIRC instanceId cacheKey)
    | Some _ =>
      '(status, err) <- fetchAndCacheIRC h instanceId cacheKey ;;
      match err with
      | Some e =>
        if decide (Error e = "service not configured") then
          JSON StatusOK (BIRC (make_slice []))
        else
          let httpStatus := StatusInternalServerError in
          httpStatus <-
            (if decide (e = DeadlineExceeded \/ e = Canceled) then
               let httpStatus := StatusGatewayTimeout in
               log LError (Some e) (Some instanceId)
                 "Request timeout while fetching Autobrr IRC status" ;;
               ret httpStatus
             else
               log LError (Some e) (Some instanceId)
                 "Failed to fetch Autobrr IRC status" ;;
               ret httpStatus) ;;
          JSON httpStatus (BError (Error e))
      | None =>
        log LDebug None (Some instanceId)
          "Successfully retrieved and cached Autobrr IRC status" ;;
        JSON StatusOK (BIRC status)
      end
    end.

End Handlers.
End handlers.

(** ** Package [routes]: the rate limiters of [SetupRoutes] *)

Module routes.
Section Routes.
(** The type of the cache store handed to every limiter. *)
Context {S : Type}.

(** Modelled from the spec: [middleware.RateLimiter] and its constructor
    [middleware.NewRateLimiter] are not among the sources.  A limiter is a
    sliding window of a fixed duration with a maximum count, counting in
    the store under keys that start with its prefix; the constructor
    records its four arguments. *)
Record RateLimiter : Type := {
  store : S;
  window : Duration;
  limit : Z;
  keyPrefix : string
}.

Definition NewRateLimiter (store : S) (window : Duration) (limit : Z)
  (keyPrefix : string) : RateLimiter :=
  {| store := store; window := window; limit := limit; keyPrefix := keyPrefix |}.

(** The middleware a route group installs with [Use]. *)
Inductive Middleware : Type :=
| RequireAuth
| RateLimit (l : RateLimiter)
| Cache.

(** A route group: its path, the middleware of the group and of the groups
    around it (outermost first), and its routes (method and path below
    the group). *)
Record Group : Type := {
  path : string;
  uses : list Middleware;
  endpoints : list (string * string)
}.

(** What [SetupRoutes] builds, as far as rate limiting goes: the four
    limiters and the route groups that install one of them. *)
Record Routes : Type := {
  apiRateLimiter : RateLimiter;
  healthRateLimiter : RateLimiter;
  authRateLimiter : RateLimiter;
  tailscaleRateLimiter : RateLimiter;
  groups : list Group
}.

(** [oidc] tells whether the OIDC settings are present ([hasOIDCConfig]). *)
Definition SetupRoutes (store : S) (oidc : bool) : Routes :=
  let apiRateLimiter := NewRateLimiter store Minute 60 "api:" in
  let healthRateLimiter := NewRateLimiter store Minute 30 "health:" in
  let authRateLimiter := NewRateLimiter store Minute 30 "auth:" in
  let tailscaleRateLimiter := NewRateLimiter store (2 * Minute) 20 "tailscale:" in
  {| apiRateLimiter := apiRateLimiter;
     healthRateLimiter := healthRateLimiter;
     authRateLimiter := authRateLimiter;
     tailscaleRateLimiter := tailscaleRateLimiter;
     groups :=
       (if oidc then
          [ {| path := "/api/auth/oidc";
               uses := [RateLimit authRateLimiter];
               endpoints := [("GET", "/login"); ("POST", "/logout")] |} ]
        else []) ++
       [ {| path := "/api/auth";
            uses := [RateLimit authRateLimiter];
            endpoints := [("GET", "/registration-status"); ("POST", "/register");
                          ("POST", "/login"); ("POST", "/logout"); ("GET", "/verify")] |};
         {| path := "/api/auth";
            uses := [RequireAuth; RateLimit authRateLimiter];
            endpoints :=
              (if oidc then
                 [("POST", "/oidc/refresh"); ("GET", "/oidc/verify");
                  ("GET", "/oidc/userinfo")]
               else []) ++ [("GET", "/userinfo")] |};
         {| path := "/api/health";
            uses := [RequireAuth; RateLimit healthRateLimiter];
            endpoints := [("GET", "/:service"); ("GET", "/events")] |};
         {| path := "/api";
            uses := [RequireAuth; RateLimit apiRateLimiter; Cache];
            endpoints :=
              [("GET", "/autobrr/stats"); ("GET", "/autobrr/irc");
               ("GET", "/plex/sessions"); ("GET", "/maintainerr/collections");
               ("GET", "/overseerr/requests");
               ("GET", "/sonarr/queue"); ("GET", "/sonarr/stats");
               ("DELETE", "/sonarr/queue/:id");
               ("GET", "/radarr/queue"); ("DELETE", "/radarr/queue/:id");
               ("GET", "/prowlarr/stats"); ("GET", "/prowlarr/indexers");
               ("GET", "/omegabrr/status");
               ("POST", "/omegabrr/webhook/arrs"); ("POST", "/omegabrr/webhook/lists");
               ("POST", "/omegabrr/webhook/all")] |};
         {| path := "/api";
            uses := [RequireAuth; RateLimit tailscaleRateLimiter; Cache];
            endpoints := [("GET", "/tailscale/devices")] |};
         {| path := "/api/services/:instanceId";
            uses := [RequireAuth; RateLimit apiRateLimiter];
            endpoints := [("POST", "/overseerr/request/:requestId/:status")] |} ]
  |}.

(** The limiters [SetupRoutes] creates, in the order it creates them. *)
Definition limiters (r : Routes) : list RateLimiter :=
  [apiRateLimiter r; healthRateLimiter r; authRateLimiter r; tailscaleRateLimiter r].

End Routes.
Arguments RateLimiter S : clear implicits.
Arguments Routes S : clear implicits.

(** The route groups of [SetupRoutes] that install no rate limiter: the
    public group and the settings group. *)
Definition openGroups {S : Type} (oidc : bool) : list (@Group S) :=
  [ {| path := "";
       uses := [];
       endpoints :=
         [("GET", "/health"); ("GET", "/api/auth/config")] ++
         (if oidc then [("GET", "/api/auth/callback")] else []) |};
    {| path := "/api/settings";
       uses := [RequireAuth];
       endpoints := [("GET", ""); ("POST", "/:instance"); ("DELETE", "/:instance")] |} ].

(** The middleware [SetupRoutes] installs on the engine itself with [r.Use],
    in order, before it creates any group: they run first on every route. *)
Inductive EngineMiddleware : Type :=
| Logger
| Recovery
| SetupCORS
| Secure.

Definition engineMiddleware : list EngineMiddleware :=
  [Logger; Recovery; SetupCORS; Secure].

(** A middleware in the chain of a route: installed on the engine, or on
    the group of the route or on a group around it. *)
Inductive Installed {S : Type} : Type :=
| OnEngine (m : EngineMiddleware)
| OnGroup (m : @Middleware S).

(** The chain a request runs through before the handler of a route of the
    group: the middleware of the engine, then those of the group. *)
Definition chainOf {S : Type} (g : @Group S) : list (@Installed S) :=
  map OnEngine engineMiddleware ++ map OnGroup (uses g).

(** The routes of a group: method, full path and middleware chain. *)
Definition routesOf {S : Type} (g : @Group S)
  : list (string * string * list (@Installed S)) :=
  map (fun e => (e.1, path g +:+ e.2, chainOf g)) (endpoints g).

(** Every route [SetupRoutes] registers, listed group by group (the open
    groups first), not in the order of registration. *)
Definition allRoutes {S : Type} (store : S) (oidc : bool)
  : list (string * string * list (@Installed S)) :=
  flat_map routesOf (openGroups oidc ++ groups (SetupRoutes store oidc)).

(** The process environment: the variables that are set, with their values. *)
Section Environment.
Implicit Type env : gmap string string.

(** [os.Getenv]: the value, the empty string when the variable is unset. *)
Definition Getenv env (key : string) : string :=
  match env !! key with
  | Some value => value
  | None => ""
  end.

(** [os.LookupEnv]: the value and whether the variable is set. *)
Definition LookupEnv env (key : string) : string * bool :=
  match env !! key with
  | Some value => (value, true)
  | None => ("", false)
  end.

Definition hasOIDCConfig env : bool :=
  bool_decide (Getenv env "OIDC_ISSUER" <> "") &&
  bool_decide (Getenv env "OIDC_CLIENT_ID" <> "") &&
  bool_decide (Getenv env "OIDC_CLIENT_SECRET" <> "").

Definition getEnvOrDefault env (key defaultValue : string) : string :=
  let '(value, exists_) := LookupEnv env key in
  if exists_ then value else defaultValue.

(** [types.AuthConfig], with the fields [SetupRoutes] fills in. *)
Record AuthConfig : Type := {
  Issuer : string;
  ClientID : string;
  ClientSecret : string;
  RedirectURL : string
}.

(** [cache.Config], with the fields [SetupRoutes] fills in. *)
Record Config : Type := {
  DataDir : string;
  RedisAddr : string
}.

(** [filepath.Dir], which [SetupRoutes] applies to the database path. *)
Variable filepath_Dir : string -> string.

(** The cache configuration [SetupRoutes] hands to [cache.InitCache]. *)
Definition SetupRoutes_cacheConfig env : Config :=
  let cacheConfig :=
    {| DataDir := filepath_Dir (Getenv env "DASHBRR__DB_PATH"); RedisAddr := "" |} in
  if decide (Getenv env "REDIS_HOST" <> "") then
    let host := Getenv env "REDIS_HOST" in
    let port := Getenv env "REDIS_PORT" in
    let port := if decide (port = "") then "6379" else port in
    {| DataDir := DataDir cacheConfig; RedisAddr := (host +:+ ":") +:+ port |}
  else cacheConfig.

(** The cache type [SetupRoutes] writes to the log. *)
Definition SetupRoutes_cacheType env : string :=
  let cacheType := "memory" in
  if decide (Getenv env "CACHE_TYPE" = "redis" /\ Getenv env "REDIS_HOST" <> "")
  then "redis" else cacheType.

(** The OIDC configuration [SetupRoutes] builds: none unless
    [hasOIDCConfig]. *)
Definition SetupRoutes_authConfig env : option AuthConfig :=
  if hasOIDCConfig env then
    Some {| Issuer := getEnvOrDefault env "OIDC_ISSUER" "";
            ClientID := getEnvOrDefault env "OIDC_CLIENT_ID" "";
            ClientSecret := getEnvOrDefault env "OIDC_CLIENT_SECRET" "";
            RedirectURL := getEnvOrDefault env "OIDC_REDIRECT_URL"
                             "http://localhost:3000/api/auth/callback" |}
  else None.

End Environment.
End routes.

(** ** Two cache stores *)

Section Stores.
Context `{AutobrrTypes}.

(** *** The in-process store *)

(** An encoded payload. *)
Inductive Cached : Type :=
| CachedStats (s : AutobrrStats)
| CachedIRC (s : slice IRCStatus).

Definition encode (k : PayloadKind) : payload k -> Cached :=
  match k with
  | KStats => CachedStats
  | KIRC => CachedIRC
  end.

Definition decode (k : PayloadKind) (c : Cached) : option (payload k) :=
  match k return option (payload k) with
  | KStats => match c with CachedStats s => Some s | CachedIRC _ => None end
  | KIRC => match c with CachedIRC s => Some s | CachedStats _ => None end
  end.

(** Modelled from the spec: the cache entry of the data model, with the
    time it was stored and the time it expires. *)
Record CacheEntry : Type := {
  value : Cached;
  storedAt : Z;
  expiresAt : Z
}.

(** Modelled from the spec: the in-process backend of the cache store, a
    map from keys to entries read at the time [clock] (nanoseconds).  [Get]
    on an absent key or on an entry past [expiresAt] reports "not found";
    [Set] overwrites unconditionally, stamping the entry with the clock. *)
Record MemoryStore : Type := {
  entries : gmap string CacheEntry;
  clock : Z
}.

Definition ErrKeyNotFound : error := errorString "cache: key not found".

Definition MemoryStore_Get (k : PayloadKind) (key : string) (init : payload k)
  (s : MemoryStore) : payload k * option error * MemoryStore :=
  match entries s !! key with
  | Some e =>
    if decide (clock s <= expiresAt e) then
      match decode k (value e) with
      | Some v => (v, None, s)
      | None => (init, Some (errorString "cache: cannot decode entry"), s)
      end
    else (init, Some ErrKeyNotFound, s)
  | None => (init, Some ErrKeyNotFound, s)
  end.

Definition MemoryStore_Set (k : PayloadKind) (key : string) (v : payload k)
  (ttl : Duration) (s : MemoryStore) : option error * MemoryStore :=
  (None,
   {| entries :=
        <[key := {| value := encode k v; storedAt := clock s;
                    expiresAt := clock s + ttl |}]> (entries s);
      clock := clock s |}).

Global Instance MemoryStore_Store : Store MemoryStore := {
  Get := MemoryStore_Get;
  Set_ := MemoryStore_Set
}.

(** The age of the entry under [key], when there is one. *)
Definition age (s : MemoryStore) (key : string) : option Z :=
  match entries s !! key with
  | Some e => Some (clock s - storedAt e)
  | None => None
  end.

(** Time passes. *)
Definition advance (d : Duration) (s : MemoryStore) : MemoryStore :=
  {| entries := entries s; clock := clock s + d |}.

(** *** The mock store of the handler tests *)

(** What a test configured a method of the mock to return. *)
Inductive MockArg : Type :=
| ArgNil
| ArgError (e : error)
| ArgOther.

(** [MockStore]: the return a test configured for [Get] and for [Set]
    ([None] when [Called] hands back no arguments), and the keys of the
    calls made.  A call for which the test registered no expectation
    panics inside [Called]; that is not a state of this record. *)
Record MockStore : Type := {
  onGet : option MockArg;
  onSet : option MockArg;
  calls : list string
}.

Definition safeArgs (args : option MockArg) : MockArg :=
  match args with
  | None => ArgError (errorString "mock not configured")
  | Some a => a
  end.

(** The body shared by every method of the mock that returns an error. *)
Definition mockError (args : MockArg) : option error :=
  match args with
  | ArgNil => None
  | ArgError e => Some e
  | ArgOther => Some (errorString "unknown error")
  end.

Definition MockStore_called (key : string) (m : MockStore) : MockStore :=
  {| onGet := onGet m; onSet := onSet m; calls := calls m ++ [key] |}.

Definition MockStore_Get (k : PayloadKind) (key : string) (value : payload k)
  (m : MockStore) : payload k * option error * MockStore :=
  let args := safeArgs (onGet m) in
  (value, mockError args, MockStore_called key m).

Definition MockStore_Set (k : PayloadKind) (key : string) (value : payload k)
  (expiration : Duration) (m : MockStore) : option error * MockStore :=
  let args := safeArgs (onSet m) in
  (mockError args, MockStore_called key m).

Global Instance MockStore_Store : Store MockStore := {
  Get := MockStore_Get;
  Set_ := MockStore_Set
}.

End Stores.

(** ** Observations on a run *)

Section Observations.
Context `{AutobrrTypes}.

(** The responses written with [c.JSON], in order. *)
Fixpoint responses (evs : list Event) : list (Z * Body) :=
  match evs with
  | [] => []
  | EJSON status body :: evs' => (status, body) :: responses evs'
  | _ :: evs' => responses evs'
  end.

(** The key and the TTL of every [Set] on the cache store, in order. *)
Fixpoint cacheSets (evs : list Event) : list (string * Duration) :=
  match evs with
  | [] => []
  | ECacheSet _ key _ ttl :: evs' => (key, ttl) :: cacheSets evs'
  | _ :: evs' => cacheSets evs'
  end.

(** The goroutines started, in order. *)
Fixpoint spawned (evs : list Event) : list Task :=
  match evs with
  | [] => []
  | EGo t :: evs' => t :: spawned evs'
  | _ :: evs' => spawned evs'
  end.

(** A call to the cache store, to the configuration store or to the
    upstream adapter. *)
Definition consults (e : Event) : bool :=
  match e with
  | ECacheGet _ | ECacheSet _ _ _ _ | EDbLookup _
  | EGetReleaseStats _ _ | EGetIRCStatus _ _ => true
  | ELog _ _ _ _ | EJSON _ _ | EGo _ => false
  end.

(** The configuration store has no usable record for the instance: no
    record at all, or a record with an empty URL. *)
Definition unconfigured (d : DB) (instanceId : string) : Prop :=
  GetServiceByInstanceID d instanceId = (None, None) \/
  exists cfg, GetServiceByInstanceID d instanceId = (Some cfg, None) /\ URL cfg = "".

(** The request carries no instance: the parameter is absent, or the
    first value sent for it is empty. *)
Definition noInstanceId (c : gin_Context) : Prop :=
  (forall v, ("instanceId"%string, v) ∉ query c) \/ Query c "instanceId" = "".

(** The error of a [Get] on the store. *)
Definition getError {S} `{!Store S} (k : PayloadKind) (key : string)
  (init : payload k) (s : S) : option error :=
  (Get k key init s).1.2.

(** The state a [Get] leaves the store in. *)
Definition getState {S} `{!Store S} (k : PayloadKind) (key : string)
  (init : payload k) (s : S) : S :=
  (Get k key init s).2.

(** What the variable handed to [Get] holds afterwards. *)
Definition getValue {S} `{!Store S} (k : PayloadKind) (key : string)
  (init : payload k) (s : S) : payload k :=
  (Get k key init s).1.1.

(** The events that follow the first response. *)
Fixpoint afterResponse (evs : list Event) : list Event :=
  match evs with
  | [] => []
  | EJSON _ _ :: evs' => evs'
  | _ :: evs' => afterResponse evs'
  end.

(** The payload of a [Set], read at kind [k]: none when it is of the other
    kind. *)
Definition payloadAt (k k' : PayloadKind) : payload k' -> option (payload k) :=
  match k, k' return payload k' -> option (payload k) with
  | KStats, KStats => fun v => Some v
  | KIRC, KIRC => fun v => Some v
  | _, _ => fun _ => None
  end.

(** The [Set]s of payloads of kind [k], in order: key, payload and TTL. *)
Fixpoint setsOf (k : PayloadKind) (evs : list Event)
  : list (string * payload k * Duration) :=
  match evs with
  | [] => []
  | ECacheSet k' key v ttl :: evs' =>
    match payloadAt k k' v with
    | Some v' => (key, v', ttl) :: setsOf k evs'
    | None => setsOf k evs'
    end
  | _ :: evs' => setsOf k evs'
  end.

(** A call to the upstream adapter. *)
Definition isUpstream (e : Event) : bool :=
  match e with
  | EGetReleaseStats _ _ | EGetIRCStatus _ _ => true
  | _ => false
  end.

(** The errors logged at error level, in order. *)
Fixpoint errorLogs (evs : list Event) : list (option error) :=
  match evs with
  | [] => []
  | ELog LError err _ _ :: evs' => err :: errorLogs evs'
  | _ :: evs' => errorLogs evs'
  end.

(** The status and the body of a response agree: 200 carries a payload of
    kind [k], 400, 500 and 504 carry an error message. *)
Definition wellFormedResponse (k : PayloadKind) (r : Z * Body) : Prop :=
  match r.2 with
  | BStats _ => r.1 = StatusOK /\ k = KStats
  | BIRC _ => r.1 = StatusOK /\ k = KIRC
  | BError _ =>
    r.1 = StatusBadRequest \/ r.1 = StatusInternalServerError \/
    r.1 = StatusGatewayTimeout
  end.

End Observations.

(** ** Concrete collaborators on which the handlers are run *)

Module fixtures.

(** Stand-ins for the payload types: release statistics reduced to one
    counter, an IRC status reduced to the name of its network. *)
#[export] Instance exampleTypes : AutobrrTypes := {|
  AutobrrStats := Z;
  AutobrrStats_zero := 0;
  IRCStatus := string
|}.

(** An upstream that answers. *)
Definition svc_ok : AutobrrService := {|
  GetReleaseStats := fun _ _ => (42, None);
  GetIRCStatus := fun _ _ => (make_slice ["libera"%string], None)
|}.

(** An upstream that times out after part of the answer was read. *)
Definition svc_timeout : AutobrrService := {|
  GetReleaseStats := fun _ _ => (7, Some DeadlineExceeded);
  GetIRCStatus := fun _ _ => (make_slice ["libera"%string], Some Canceled)
|}.

(** An upstream that refuses the connection. *)
Definition svc_refused : AutobrrService := {|
  GetReleaseStats := fun _ _ => (0, Some (errorString "connection refused"));
  GetIRCStatus := fun _ _ => (nil_slice, Some (errorString "connection refused"))
|}.

(** A configuration store with a record for ["a"], a record without URL
    for ["b"] and nothing else. *)
Definition db_a : DB := {|
  GetServiceByInstanceID := fun id =>
    if decide (id = "a") then
      (Some {| InstanceID := "a"; URL := "http://autobrr:7474"; APIKey := "k" |}, None)
    else if decide (id = "b") then
      (Some {| InstanceID := "b"; URL := ""; APIKey := "" |}, None)
    else (None, None)
|}.

(** A configuration store without any record. *)
Definition db_empty : DB := {|
  GetServiceByInstanceID := fun _ => (None, None)
|}.

(** A configuration store that cannot be read. *)
Definition db_down : DB := {|
  GetServiceByInstanceID := fun _ => (None, Some (errorString "database is locked"))
|}.

Definition h_a : handlers.AutobrrHandler := {| handlers.db := db_a |}.
Definition h_empty : handlers.AutobrrHandler := {| handlers.db := db_empty |}.
Definition h_down : handlers.AutobrrHandler := {| handlers.db := db_down |}.

(** [GET ...?instanceId=id] and a request without the parameter. *)
Definition request (id : string) : gin_Context :=
  {| query := [("instanceId"%string, id)] |}.
Definition request_bare : gin_Context := {| query := [] |}.

(** An empty in-process store at time 0. *)
Definition store_empty : MemoryStore := {| entries := ∅; clock := 0 |}.

(** The in-process store after a first request for the statistics and a
    first request for the IRC status of ["a"], both served by a fetch at
    time 0. *)
Definition store_warm : MemoryStore :=
  final (handlers.GetAutobrrIRCStatus svc_ok h_a (request "a")
           (final (handlers.GetAutobrrReleaseStats svc_ok h_a (request "a")
                     store_empty))).

(** A mock store whose calls hand back no return value: every call
    fails. *)
Definition mock_unconfigured : MockStore :=
  {| onGet := None; onSet := None; calls := [] |}.

(** A mock store whose [Get] misses and whose [Set] fails. *)
Definition mock_set_fails : MockStore :=
  {| onGet := Some (ArgError ErrKeyNotFound);
     onSet := Some (ArgError (errorString "connection refused"));
     calls := [] |}.

(** An upstream whose failure reads "service not configured". *)
Definition svc_masked : AutobrrService := {|
  GetReleaseStats := fun _ _ => (7, Some (errorString "service not configured"));
  GetIRCStatus := fun _ _ =>
    (make_slice ["libera"%string], Some (errorString "service not configured"))
|}.

(** An upstream whose request runs into its deadline: the HTTP client
    hands back the deadline error wrapped in the error of the request. *)
Definition svc_wrapped_timeout : AutobrrService := {|
  GetReleaseStats := fun _ _ =>
    (0, Some (wrapError "Get http://autobrr:7474/api/release/stats: context deadline exceeded"
                DeadlineExceeded));
  GetIRCStatus := fun _ _ =>
    (nil_slice, Some (wrapError "Get http://autobrr:7474/api/irc: context canceled"
                        Canceled))
|}.


(** An upstream that answers with newer values than [svc_ok]. *)
Definition svc_newer : AutobrrService := {|
  GetReleaseStats := fun _ _ => (43, None);
  GetIRCStatus := fun _ _ => (make_slice ["libera"%string; "oftc"%string], None)
|}.


(** An environment with the OIDC settings, an empty redirect URL, and a
    Redis host without port. *)
Definition env_oidc : gmap string string :=
  <["OIDC_ISSUER"%string := "https://issuer.example"%string]>
  (<["OIDC_CLIENT_ID"%string := "dashbrr"%string]>
  (<["OIDC_CLIENT_SECRET"%string := "s3cret"%string]>
  (<["OIDC_REDIRECT_URL"%string := ""%string]>
  (<["REDIS_HOST"%string := "redis"%string]> ∅)))).

(** An environment that names a Redis host and port and asks for the Redis
    cache. *)
Definition env_redis : gmap string string :=
  <["CACHE_TYPE"%string := "redis"%string]>
  (<["REDIS_HOST"%string := "10.0.0.5"%string]>
  (<["REDIS_PORT"%string := "6380"%string]> ∅)).

End fixtures.

(** * Properties *)

Import handlers.

Create HintDb run discriminated.
#[local] Hint Unfold bind ret emit cacheGet cacheSet dbGetServiceByInstanceID
  serviceGetReleaseStats serviceGetIRCStatus log JSON go
  result final events getError getState getValue : run.

(** Unfold the monad and the recorded calls down to pairs. *)
Ltac run := autounfold with run in *; cbn [fst snd] in *.

(** Split on the next [decide] of the goal. *)
Ltac split_decide :=
  match goal with
  | |- context [decide ?P] => destruct (decide P)
  end.

(** Prepending a fixed prefix is injective. *)
Lemma append_inj_r (p a b : string) : p +:+ a = p +:+ b -> a = b.
Proof.
  induction p as [|ch p IH]; cbn; [trivial|].
  intros Heq. apply IH. injection Heq. trivial.
Qed.

Lemma lookupQuery_absent (key : string) (q : list (string * string)) :
  (forall v, (key, v) ∉ q) -> lookupQuery key q = "".
Proof.
  induction q as [|[k v] q IH]; intros Hq; [reflexivity|].
  cbn. destruct (decide (k = key)) as [->|Hne].
  - exfalso. apply (Hq v). left.
  - apply IH. intros v' Hin. apply (Hq v'). right. exact Hin.
Qed.

Lemma noInstanceId_Query (c : gin_Context) :
  noInstanceId c -> Query c "instanceId" = "".
Proof.
  intros [Habs|Hemp]; [|exact Hemp].
  unfold Query. apply lookupQuery_absent. exact Habs.
Qed.

Section Properties.
Context `{AutobrrTypes} {S : Type} `{!Store S}.
Variable service : AutobrrService.

Implicit Types (h : AutobrrHandler) (c : gin_Context) (s : S).

Lemma responses_app (a b : list Event) :
  responses (a ++ b) = responses a ++ responses b.
Proof. induction a as [|[] a IH]; cbn; rewrite ?IH; reflexivity. Qed.

Lemma cacheSets_app (a b : list Event) :
  cacheSets (a ++ b) = cacheSets a ++ cacheSets b.
Proof. induction a as [|[] a IH]; cbn; rewrite ?IH; reflexivity. Qed.

Lemma spawned_app (a b : list Event) :
  spawned (a ++ b) = spawned a ++ spawned b.
Proof. induction a as [|[] a IH]; cbn; rewrite ?IH; reflexivity. Qed.

(** The fetch writes no response and starts no goroutine. *)
Lemma fetchAndCacheStats_quiet h (instanceId cacheKey : string) s :
  responses (events (fetchAndCacheStats service h instanceId cacheKey s)) = [] /\
  spawned (events (fetchAndCacheStats service h instanceId cacheKey s)) = [].
Proof.
  unfold fetchAndCacheStats. run.
  destruct (GetServiceByInstanceID (db h) instanceId) as [[cfg|] [e|]]; cbn;
    try (split; reflexivity).
  split_decide; cbn; [split; reflexivity|].
  destruct (GetReleaseStats service (URL cfg) (APIKey cfg)) as [stats [e|]]; cbn;
    [split; reflexivity|].
  destruct (Set_ KStats cacheKey stats autobrrStatsCacheDuration s) as [[e|] s'];
    cbn; split; reflexivity.
Qed.

Lemma fetchAndCacheIRC_quiet h (instanceId cacheKey : string) s :
  responses (events (fetchAndCacheIRC service h instanceId cacheKey s)) = [] /\
  spawned (events (fetchAndCacheIRC service h instanceId cacheKey s)) = [].
Proof.
  unfold fetchAndCacheIRC. run.
  destruct (GetServiceByInstanceID (db h) instanceId) as [[cfg|] [e|]]; cbn;
    try (split; reflexivity).
  split_decide; cbn; [split; reflexivity|].
  destruct (GetIRCStatus service (URL cfg) (APIKey cfg)) as [status [e|]]; cbn;
    [split; reflexivity|].
  destruct (Set_ KIRC cacheKey status autobrrIRCCacheDuration s) as [[e|] s'];
    cbn; split; reflexivity.
Qed.

(** The run of the statistics handler when [Get] returns an error: the
    [Get], then the fetch on the state [Get] left, then log lines and one
    response chosen from the result of the fetch. *)
Lemma stats_miss_run h c s :
  let instanceId := Query c "instanceId" in
  let cacheKey := statsPrefix +:+ instanceId in
  instanceId <> "" ->
  getError KStats cacheKey AutobrrStats_zero s <> None ->
  let run := GetAutobrrReleaseStats service h c s in
  let fetch := fetchAndCacheStats service h instanceId cacheKey
                 (getState KStats cacheKey AutobrrStats_zero s) in
  (exists tail, events run = ECacheGet cacheKey :: events fetch ++ tail /\
                filter consults tail = []) /\
  final run = final fetch /\
  responses (events run) =
    match result fetch with
    | (stats, None) => [(StatusOK, BStats stats)]
    | (_, Some e) =>
      if decide (Error e = "service not configured")
      then [(StatusOK, BStats AutobrrStats_zero)]
      else [(if decide (e = DeadlineExceeded \/ e = Canceled)
             then StatusGatewayTimeout else StatusInternalServerError,
             BError (Error e))]
    end.
Proof.
  intros instanceId cacheKey Hid Hmiss run fetch. subst run fetch.
  unfold GetAutobrrReleaseStats. fold instanceId cacheKey.
  destruct (decide (instanceId = "")) as [|_]; [contradiction|].
  run.
  destruct (Get KStats cacheKey AutobrrStats_zero s) as [[v [e0|]] s1];
    cbn [fst snd] in *; [clear Hmiss|congruence].
  pose proof (fetchAndCacheStats_quiet h instanceId cacheKey s1) as [Hq _]. run.
  destruct (fetchAndCacheStats service h instanceId cacheKey s1)
    as [[[stats [e|]] s2] t]; cbn [fst snd] in *.
  - destruct (decide (Error e = "service not configured")).
    + cbn. rewrite responses_app, Hq. cbn.
      repeat split. eexists. split; reflexivity.
    + destruct (decide (e = DeadlineExceeded \/ e = Canceled));
        cbn; rewrite responses_app, Hq; cbn;
        (repeat split; eexists; split; reflexivity).
  - cbn. rewrite responses_app, Hq. cbn.
    repeat split. eexists. split; reflexivity.
Qed.

(** The same for the IRC handler. *)
Lemma irc_miss_run h c s :
  let instanceId := Query c "instanceId" in
  let cacheKey := ircPrefix +:+ instanceId in
  instanceId <> "" ->
  getError KIRC cacheKey nil_slice s <> None ->
  let run := GetAutobrrIRCStatus service h c s in
  let fetch := fetchAndCacheIRC service h instanceId cacheKey
                 (getState KIRC cacheKey nil_slice s) in
  (exists tail, events run = ECacheGet cacheKey :: events fetch ++ tail /\
                filter consults tail = []) /\
  final run = final fetch /\
  responses (events run) =
    match result fetch with
    | (status, None) => [(StatusOK, BIRC status)]
    | (_, Some e) =>
      if decide (Error e = "service not configured")
      then [(StatusOK, BIRC (make_slice []))]
      else [(if decide (e = DeadlineExceeded \/ e = Canceled)
             then StatusGatewayTimeout else StatusInternalServerError,
             BError (Error e))]
    end.
Proof.
  intros instanceId cacheKey Hid Hmiss run fetch. subst run fetch.
  unfold GetAutobrrIRCStatus. fold instanceId cacheKey.
  destruct (decide (instanceId = "")) as [|_]; [contradiction|].
  run.
  destruct (Get KIRC cacheKey nil_slice s) as [[v [e0|]] s1];
    cbn [fst snd] in *; [clear Hmiss|congruence].
  pose proof (fetchAndCacheIRC_quiet h instanceId cacheKey s1) as [Hq _]. run.
  destruct (fetchAndCacheIRC service h instanceId cacheKey s1)
    as [[[status [e|]] s2] t]; cbn [fst snd] in *.
  - destruct (decide (Error e = "service not configured")).
    + cbn. rewrite responses_app, Hq. cbn.
      repeat split. eexists. split; reflexivity.
    + destruct (decide (e = DeadlineExceeded \/ e = Canceled));
        cbn; rewrite responses_app, Hq; cbn;
        (repeat split; eexists; split; reflexivity).
  - cbn. rewrite responses_app, Hq. cbn.
    repeat split. eexists. split; reflexivity.
Qed.

(** The fetch for an instance without usable record. *)
Lemma fetch_unconfigured h (instanceId cacheKey : string) s :
  unconfigured (db h) instanceId ->
  fetchAndCacheStats service h instanceId cacheKey s =
    ((AutobrrStats_zero, Some (errorString "service not configured")), s,
     [EDbLookup instanceId]) /\
  fetchAndCacheIRC service h instanceId cacheKey s =
    ((nil_slice, Some (errorString "service not configured")), s,
     [EDbLookup instanceId]).
Proof.
  unfold fetchAndCacheStats, fetchAndCacheIRC. run.
  intros [Hnone|(cfg & Hcfg & Hurl)].
  - rewrite Hnone. split; reflexivity.
  - rewrite Hcfg. destruct (decide (URL cfg = "")); [|contradiction].
    split; reflexivity.
Qed.

(** The fetch when the record is usable and the upstream answers: the
    value is returned whatever [Set] says, and an error of [Set] is only
    logged. *)
Lemma fetchAndCacheStats_success h (instanceId cacheKey : string) s cfg stats :
  GetServiceByInstanceID (db h) instanceId = (Some cfg, None) ->
  URL cfg <> "" ->
  GetReleaseStats service (URL cfg) (APIKey cfg) = (stats, None) ->
  fetchAndCacheStats service h instanceId cacheKey s =
    ((stats, None),
     (Set_ KStats cacheKey stats autobrrStatsCacheDuration s).2,
     [EDbLookup instanceId; EGetReleaseStats (URL cfg) (APIKey cfg);
      ECacheSet KStats cacheKey stats autobrrStatsCacheDuration] ++
     match (Set_ KStats cacheKey stats autobrrStatsCacheDuration s).1 with
     | Some e => [ELog LWarn (Some e) (Some instanceId)
                    "Failed to cache Autobrr release stats"]
     | None => []
     end).
Proof.
  intros Hcfg Hurl Hup. unfold fetchAndCacheStats. run.
  rewrite Hcfg. destruct (decide (URL cfg = "")); [contradiction|].
  rewrite Hup.
  destruct (Set_ KStats cacheKey stats autobrrStatsCacheDuration s) as [[e|] s'];
    reflexivity.
Qed.

Lemma fetchAndCacheIRC_success h (instanceId cacheKey : string) s cfg status :
  GetServiceByInstanceID (db h) instanceId = (Some cfg, None) ->
  URL cfg <> "" ->
  GetIRCStatus service (URL cfg) (APIKey cfg) = (status, None) ->
  fetchAndCacheIRC service h instanceId cacheKey s =
    ((status, None),
     (Set_ KIRC cacheKey status autobrrIRCCacheDuration s).2,
     [EDbLookup instanceId; EGetIRCStatus (URL cfg) (APIKey cfg);
      ECacheSet KIRC cacheKey status autobrrIRCCacheDuration] ++
     match (Set_ KIRC cacheKey status autobrrIRCCacheDuration s).1 with
     | Some e => [ELog LWarn (Some e) (Some instanceId)
                    "Failed to cache Autobrr IRC status"]
     | None => []
     end).
Proof.
  intros Hcfg Hurl Hup. unfold fetchAndCacheIRC. run.
  rewrite Hcfg. destruct (decide (URL cfg = "")); [contradiction|].
  rewrite Hup.
  destruct (Set_ KIRC cacheKey status autobrrIRCCacheDuration s) as [[e|] s'];
    reflexivity.
Qed.

(** The run of a handler when [Get] returns no error. *)
Lemma stats_hit_run h c s :
  let instanceId := Query c "instanceId" in
  let cacheKey := statsPrefix +:+ instanceId in
  instanceId <> "" ->
  getError KStats cacheKey AutobrrStats_zero s = None ->
  GetAutobrrReleaseStats service h c s =
    (tt, getState KStats cacheKey AutobrrStats_zero s,
     [ECacheGet cacheKey;
      ELog LDebug None (Some instanceId) "Serving Autobrr release stats from cache";
      EJSON StatusOK (BStats (getValue KStats cacheKey AutobrrStats_zero s));
      EGo (TRefreshStats instanceId cacheKey)]).
Proof.
  intros instanceId cacheKey Hid Hhit.
  unfold GetAutobrrReleaseStats. fold instanceId cacheKey.
  destruct (decide (instanceId = "")) as [|_]; [contradiction|].
  run.
  destruct (Get KStats cacheKey AutobrrStats_zero s) as [[v [e0|]] s1];
    cbn [fst snd] in *; [congruence|reflexivity].
Qed.

Lemma irc_hit_run h c s :
  let instanceId := Query c "instanceId" in
  let cacheKey := ircPrefix +:+ instanceId in
  instanceId <> "" ->
  getError KIRC cacheKey nil_slice s = None ->
  GetAutobrrIRCStatus service h c s =
    (tt, getState KIRC cacheKey nil_slice s,
     [ECacheGet cacheKey;
      ELog LDebug None (Some instanceId) "Serving Autobrr IRC status from cache";
      EJSON StatusOK (BIRC (getValue KIRC cacheKey nil_slice s));
      EGo (TRefreshIRC instanceId cacheKey)]).
Proof.
  intros instanceId cacheKey Hid Hhit.
  unfold GetAutobrrIRCStatus. fold instanceId cacheKey.
  destruct (decide (instanceId = "")) as [|_]; [contradiction|].
  run.
  destruct (Get KIRC cacheKey nil_slice s) as [[v [e0|]] s1];
    cbn [fst snd] in *; [congruence|reflexivity].
Qed.

(** The [Set]s of a fetch: one, under the key it was given and with the TTL
    of its kind, when it returns no error; none otherwise. *)
Lemma fetch_cacheSets h (instanceId cacheKey : string) s :
  cacheSets (events (fetchAndCacheStats service h instanceId cacheKey s)) =
    match (result (fetchAndCacheStats service h instanceId cacheKey s)).2 with
    | None => [(cacheKey, autobrrStatsCacheDuration)]
    | Some _ => []
    end /\
  cacheSets (events (fetchAndCacheIRC service h instanceId cacheKey s)) =
    match (result (fetchAndCacheIRC service h instanceId cacheKey s)).2 with
    | None => [(cacheKey, autobrrIRCCacheDuration)]
    | Some _ => []
    end.
Proof.
  unfold fetchAndCacheStats, fetchAndCacheIRC. run.
  destruct (GetServiceByInstanceID (db h) instanceId) as [[cfg|] [e|]]; cbn;
    try (split; reflexivity).
  split_decide; cbn; [split; reflexivity|].
  split.
  - destruct (GetReleaseStats service (URL cfg) (APIKey cfg)) as [stats [e|]]; cbn;
      [reflexivity|].
    destruct (Set_ KStats cacheKey stats autobrrStatsCacheDuration s) as [[e|] s'];
      reflexivity.
  - destruct (GetIRCStatus service (URL cfg) (APIKey cfg)) as [status [e|]]; cbn;
      [reflexivity|].
    destruct (Set_ KIRC cacheKey status autobrrIRCCacheDuration s) as [[e|] s'];
      reflexivity.
Qed.

(** C9.  A request whose [instanceId] parameter is absent or empty is
    answered, by both handlers, with status 400 and the body
    [{"error": "Instance ID is required"}]; the run makes no call to the
    cache store, the configuration store or the adapter, and leaves the
    store as it was. *)
Theorem missing_instance_id_rejected (h : AutobrrHandler) (c : gin_Context) (s : S) :
  noInstanceId c ->
  let bad := [(StatusBadRequest, BError "Instance ID is required")] in
  (responses (events (GetAutobrrReleaseStats service h c s)) = bad /\
   filter consults (events (GetAutobrrReleaseStats service h c s)) = [] /\
   final (GetAutobrrReleaseStats service h c s) = s) /\
  (responses (events (GetAutobrrIRCStatus service h c s)) = bad /\
   filter consults (events (GetAutobrrIRCStatus service h c s)) = [] /\
   final (GetAutobrrIRCStatus service h c s) = s).
Proof.
  intros Hno. apply noInstanceId_Query in Hno.
  unfold GetAutobrrReleaseStats, GetAutobrrIRCStatus. rewrite Hno.
  destruct (decide ("" = "")) as [_|Hne]; [|congruence].
  repeat split.
Qed.

(** C10.  When [fetchAndCacheStats] returns an error its payload is the zero
    [AutobrrStats], and when [fetchAndCacheIRC] returns an error its payload
    is the nil slice, whatever the adapter handed back with its error. *)
Theorem error_comes_with_zero_payload (h : AutobrrHandler)
  (instanceId cacheKey : string) (s : S) :
  ((result (fetchAndCacheStats service h instanceId cacheKey s)).2 <> None ->
   (result (fetchAndCacheStats service h instanceId cacheKey s)).1 = AutobrrStats_zero) /\
  ((result (fetchAndCacheIRC service h instanceId cacheKey s)).2 <> None ->
   (result (fetchAndCacheIRC service h instanceId cacheKey s)).1 = nil_slice).
Proof.
  unfold fetchAndCacheStats, fetchAndCacheIRC. run.
  destruct (GetServiceByInstanceID (db h) instanceId) as [[cfg|] [e|]]; cbn;
    try (split; reflexivity).
  split_decide; cbn; [split; reflexivity|].
  split.
  - destruct (GetReleaseStats service (URL cfg) (APIKey cfg)) as [stats [e|]]; cbn;
      [reflexivity|].
    destruct (Set_ KStats cacheKey stats autobrrStatsCacheDuration s) as [[e|] s'];
      cbn; congruence.
  - destruct (GetIRCStatus service (URL cfg) (APIKey cfg)) as [status [e|]]; cbn;
      [reflexivity|].
    destruct (Set_ KIRC cacheKey status autobrrIRCCacheDuration s) as [[e|] s'];
      cbn; congruence.
Qed.

(** C5.  A run of [fetchAndCacheStats] or of [fetchAndCacheIRC] that returns
    an error performs no [Set] on the cache store and leaves the store in
    the state it found it in. *)
Theorem error_results_never_cached (h : AutobrrHandler)
  (instanceId cacheKey : string) (s : S) :
  ((result (fetchAndCacheStats service h instanceId cacheKey s)).2 <> None ->
   cacheSets (events (fetchAndCacheStats service h instanceId cacheKey s)) = [] /\
   final (fetchAndCacheStats service h instanceId cacheKey s) = s) /\
  ((result (fetchAndCacheIRC service h instanceId cacheKey s)).2 <> None ->
   cacheSets (events (fetchAndCacheIRC service h instanceId cacheKey s)) = [] /\
   final (fetchAndCacheIRC service h instanceId cacheKey s) = s).
Proof.
  unfold fetchAndCacheStats, fetchAndCacheIRC. run.
  destruct (GetServiceByInstanceID (db h) instanceId) as [[cfg|] [e|]]; cbn;
    try (split; intros _; split; reflexivity).
  split_decide; cbn; [split; intros _; split; reflexivity|].
  split.
  - destruct (GetReleaseStats service (URL cfg) (APIKey cfg)) as [stats [e|]]; cbn;
      [intros _; split; reflexivity|].
    destruct (Set_ KStats cacheKey stats autobrrStatsCacheDuration s) as [[e|] s'];
      cbn; congruence.
  - destruct (GetIRCStatus service (URL cfg) (APIKey cfg)) as [status [e|]]; cbn;
      [intros _; split; reflexivity|].
    destruct (Set_ KIRC cacheKey status autobrrIRCCacheDuration s) as [[e|] s'];
      cbn; congruence.
Qed.

(** The [Set]s of a refresh are those of its fetch. *)
Lemma refresh_cacheSets h (instanceId cacheKey : string) s :
  cacheSets (events (refreshStatsCache service h instanceId cacheKey s)) =
    cacheSets (events (fetchAndCacheStats service h instanceId cacheKey s)) /\
  cacheSets (events (refreshIRCCache service h instanceId cacheKey s)) =
    cacheSets (events (fetchAndCacheIRC service h instanceId cacheKey s)).
Proof.
  split.
  - unfold refreshStatsCache. unfold bind at 1. unfold events.
    destruct (fetchAndCacheStats service h instanceId cacheKey s) as [[[v [e|]] s1] t];
      [split_decide|]; cbn; rewrite cacheSets_app, app_nil_r; reflexivity.
  - unfold refreshIRCCache. unfold bind at 1. unfold events.
    destruct (fetchAndCacheIRC service h instanceId cacheKey s) as [[[v [e|]] s1] t];
      [split_decide|]; cbn; rewrite cacheSets_app, app_nil_r; reflexivity.
Qed.

(** C1, as amended.  For a request with an instance identifier whose
    instance has no usable record (none, or one with an empty URL): when
    [Get] on the cache returns an error the handler answers 200 with the
    empty payload (the zero [AutobrrStats], the empty non-nil list of
    [IRCStatus]); when [Get] returns no error it answers 200 with the
    cached payload.  Either way there is one response and it is not an
    error response. *)
Theorem unconfigured_instance_answered_200 h c s :
  let instanceId := Query c "instanceId" in
  let statsKey := statsPrefix +:+ instanceId in
  let ircKey := ircPrefix +:+ instanceId in
  instanceId <> "" ->
  unconfigured (db h) instanceId ->
  (getError KStats statsKey AutobrrStats_zero s <> None ->
   responses (events (GetAutobrrReleaseStats service h c s)) =
     [(StatusOK, BStats AutobrrStats_zero)]) /\
  (getError KIRC ircKey nil_slice s <> None ->
   responses (events (GetAutobrrIRCStatus service h c s)) =
     [(StatusOK, BIRC (make_slice []))]) /\
  (getError KStats statsKey AutobrrStats_zero s = None ->
   responses (events (GetAutobrrReleaseStats service h c s)) =
     [(StatusOK, BStats (getValue KStats statsKey AutobrrStats_zero s))]) /\
  (getError KIRC ircKey nil_slice s = None ->
   responses (events (GetAutobrrIRCStatus service h c s)) =
     [(StatusOK, BIRC (getValue KIRC ircKey nil_slice s))]).
Proof.
  intros instanceId statsKey ircKey Hid Hun.
  subst statsKey ircKey instanceId. repeat split.
  - intros Hmiss.
    destruct (stats_miss_run h c s Hid Hmiss) as (_ & _ & ->).
    destruct (fetch_unconfigured h (Query c "instanceId")
                (statsPrefix +:+ Query c "instanceId")
                (getState KStats (statsPrefix +:+ Query c "instanceId")
                   AutobrrStats_zero s) Hun) as [-> _].
    reflexivity.
  - intros Hmiss.
    destruct (irc_miss_run h c s Hid Hmiss) as (_ & _ & ->).
    destruct (fetch_unconfigured h (Query c "instanceId")
                (ircPrefix +:+ Query c "instanceId")
                (getState KIRC (ircPrefix +:+ Query c "instanceId")
                   nil_slice s) Hun) as [_ ->].
    reflexivity.
  - intros Hhit. rewrite (stats_hit_run h c s Hid Hhit). reflexivity.
  - intros Hhit. rewrite (irc_hit_run h c s Hid Hhit). reflexivity.
Qed.

(** The status of a failed fetch, as the code computes it.  On a cache miss
    ([Get] returns an error) where the fetch fails with an error [e] whose
    message is not "service not configured", the handler answers 504 when
    [e] is the value [context.DeadlineExceeded] or [context.Canceled] itself
    and 500 for every other error, also for one that wraps either; in both
    cases with the body [{"error": e.Error()}]. *)
Theorem fetch_failure_status h c s (e : error) :
  let instanceId := Query c "instanceId" in
  let statsKey := statsPrefix +:+ instanceId in
  let ircKey := ircPrefix +:+ instanceId in
  let status := if decide (e = DeadlineExceeded \/ e = Canceled)
                then StatusGatewayTimeout else StatusInternalServerError in
  instanceId <> "" ->
  Error e <> "service not configured" ->
  (getError KStats statsKey AutobrrStats_zero s <> None ->
   (result (fetchAndCacheStats service h instanceId statsKey
              (getState KStats statsKey AutobrrStats_zero s))).2 = Some e ->
   responses (events (GetAutobrrReleaseStats service h c s)) =
     [(status, BError (Error e))]) /\
  (getError KIRC ircKey nil_slice s <> None ->
   (result (fetchAndCacheIRC service h instanceId ircKey
              (getState KIRC ircKey nil_slice s))).2 = Some e ->
   responses (events (GetAutobrrIRCStatus service h c s)) =
     [(status, BError (Error e))]).
Proof.
  intros instanceId statsKey ircKey status Hid Hmsg.
  subst status statsKey ircKey instanceId. split; intros Hmiss Hfail.
  - destruct (stats_miss_run h c s Hid Hmiss) as (_ & _ & ->).
    destruct (result (fetchAndCacheStats service h _ _ _))
      as [stats err]; cbn in Hfail; subst err.
    destruct (decide (Error e = "service not configured")); [contradiction|].
    reflexivity.
  - destruct (irc_miss_run h c s Hid Hmiss) as (_ & _ & ->).
    destruct (result (fetchAndCacheIRC service h _ _ _))
      as [st err]; cbn in Hfail; subst err.
    destruct (decide (Error e = "service not configured")); [contradiction|].
    reflexivity.
Qed.

(** C3, as amended.  On every cache hit ([Get] returns no error) the handler
    answers 200 with the cached payload and then starts a goroutine that
    refreshes that entry, whatever the age of the entry: there is no
    freshness threshold.  The handler itself makes no other call, so the
    response does not wait for the refresh, and the refresh, when it runs,
    writes under the same key only. *)
Theorem hit_serves_cached_and_refreshes h c s :
  let instanceId := Query c "instanceId" in
  let statsKey := statsPrefix +:+ instanceId in
  let ircKey := ircPrefix +:+ instanceId in
  instanceId <> "" ->
  (getError KStats statsKey AutobrrStats_zero s = None ->
   events (GetAutobrrReleaseStats service h c s) =
     [ECacheGet statsKey;
      ELog LDebug None (Some instanceId) "Serving Autobrr release stats from cache";
      EJSON StatusOK (BStats (getValue KStats statsKey AutobrrStats_zero s));
      EGo (TRefreshStats instanceId statsKey)] /\
   final (GetAutobrrReleaseStats service h c s) =
     getState KStats statsKey AutobrrStats_zero s /\
   forall s', Forall (fun p => p.1 = statsKey)
                (cacheSets (events (runTask service h
                                      (TRefreshStats instanceId statsKey) s')))) /\
  (getError KIRC ircKey nil_slice s = None ->
   events (GetAutobrrIRCStatus service h c s) =
     [ECacheGet ircKey;
      ELog LDebug None (Some instanceId) "Serving Autobrr IRC status from cache";
      EJSON StatusOK (BIRC (getValue KIRC ircKey nil_slice s));
      EGo (TRefreshIRC instanceId ircKey)] /\
   final (GetAutobrrIRCStatus service h c s) = getState KIRC ircKey nil_slice s /\
   forall s', Forall (fun p => p.1 = ircKey)
                (cacheSets (events (runTask service h
                                      (TRefreshIRC instanceId ircKey) s')))).
Proof.
  intros instanceId statsKey ircKey Hid.
  subst statsKey ircKey instanceId. split; intros Hhit.
  - rewrite (stats_hit_run h c s Hid Hhit).
    repeat split. intros s'. cbn [runTask].
    destruct (refresh_cacheSets h (Query c "instanceId")
                (statsPrefix +:+ Query c "instanceId") s') as [-> _].
    destruct (fetch_cacheSets h (Query c "instanceId")
                (statsPrefix +:+ Query c "instanceId") s') as [-> _].
    destruct (result _).2; repeat constructor.
  - rewrite (irc_hit_run h c s Hid Hhit).
    repeat split. intros s'. cbn [runTask].
    destruct (refresh_cacheSets h (Query c "instanceId")
                (ircPrefix +:+ Query c "instanceId") s') as [_ ->].
    destruct (fetch_cacheSets h (Query c "instanceId")
                (ircPrefix +:+ Query c "instanceId") s') as [_ ->].
    destruct (result _).2; repeat constructor.
Qed.

(** Events that consult no collaborator contain no [Set]. *)
Lemma cacheSets_no_consults (evs : list Event) :
  filter consults evs = [] -> cacheSets evs = [].
Proof.
  induction evs as [|[] evs IH]; cbn; intros Hf;
    try discriminate; try apply IH; try exact Hf; reflexivity.
Qed.

(** Past a failed [Get] the run depends on the store state only: neither
    on the error nor on what [Get] left in the variable. *)
Lemma stats_miss_independent h c s s' :
  let cacheKey := statsPrefix +:+ Query c "instanceId" in
  Query c "instanceId" <> "" ->
  getError KStats cacheKey AutobrrStats_zero s <> None ->
  getError KStats cacheKey AutobrrStats_zero s' <> None ->
  getState KStats cacheKey AutobrrStats_zero s' =
    getState KStats cacheKey AutobrrStats_zero s ->
  GetAutobrrReleaseStats service h c s' = GetAutobrrReleaseStats service h c s.
Proof.
  intros cacheKey Hid. unfold GetAutobrrReleaseStats. fold cacheKey.
  destruct (decide (Query c "instanceId" = "")) as [|_]; [contradiction|].
  run.
  destruct (Get KStats cacheKey AutobrrStats_zero s) as [[v [e|]] s1];
    destruct (Get KStats cacheKey AutobrrStats_zero s') as [[v' [e'|]] s1'];
    cbn [fst snd]; try congruence.
  intros _ _ ->. reflexivity.
Qed.

Lemma irc_miss_independent h c s s' :
  let cacheKey := ircPrefix +:+ Query c "instanceId" in
  Query c "instanceId" <> "" ->
  getError KIRC cacheKey nil_slice s <> None ->
  getError KIRC cacheKey nil_slice s' <> None ->
  getState KIRC cacheKey nil_slice s' = getState KIRC cacheKey nil_slice s ->
  GetAutobrrIRCStatus service h c s' = GetAutobrrIRCStatus service h c s.
Proof.
  intros cacheKey Hid. unfold GetAutobrrIRCStatus. fold cacheKey.
  destruct (decide (Query c "instanceId" = "")) as [|_]; [contradiction|].
  run.
  destruct (Get KIRC cacheKey nil_slice s) as [[v [e|]] s1];
    destruct (Get KIRC cacheKey nil_slice s') as [[v' [e'|]] s1'];
    cbn [fst snd]; try congruence.
  intros _ _ ->. reflexivity.
Qed.

(** C4.  When [Get] on the cache store returns an error, whichever it is,
    the handler calls the fetch on the state [Get] left, makes no further
    call to a collaborator, and answers from the result of the fetch
    alone: the error of [Get] reaches neither the response nor the store,
    and two runs whose [Get] fails and leaves the same store state are the
    same run, whatever the two errors.  When moreover the record is usable
    and the upstream answers but [Set] fails, the handler answers 200 with
    the fetched value and the error of [Set] is logged as a warning. *)
Theorem cache_failure_never_propagates h c s :
  let instanceId := Query c "instanceId" in
  let statsKey := statsPrefix +:+ instanceId in
  let ircKey := ircPrefix +:+ instanceId in
  instanceId <> "" ->
  (getError KStats statsKey AutobrrStats_zero s <> None ->
   let s1 := getState KStats statsKey AutobrrStats_zero s in
   let run := GetAutobrrReleaseStats service h c s in
   let fetch := fetchAndCacheStats service h instanceId statsKey s1 in
   (exists tail, events run = ECacheGet statsKey :: events fetch ++ tail /\
                 filter consults tail = []) /\
   final run = final fetch /\
   (forall s', getError KStats statsKey AutobrrStats_zero s' <> None ->
               getState KStats statsKey AutobrrStats_zero s' = s1 ->
               GetAutobrrReleaseStats service h c s' = run) /\
   responses (events run) =
     match result fetch with
     | (stats, None) => [(StatusOK, BStats stats)]
     | (_, Some e) =>
       if decide (Error e = "service not configured")
       then [(StatusOK, BStats AutobrrStats_zero)]
       else [(if decide (e = DeadlineExceeded \/ e = Canceled)
              then StatusGatewayTimeout else StatusInternalServerError,
              BError (Error e))]
     end /\
   forall cfg stats eset,
     GetServiceByInstanceID (db h) instanceId = (Some cfg, None) ->
     URL cfg <> "" ->
     GetReleaseStats service (URL cfg) (APIKey cfg) = (stats, None) ->
     (Set_ KStats statsKey stats autobrrStatsCacheDuration s1).1 = Some eset ->
     responses (events run) = [(StatusOK, BStats stats)] /\
     ELog LWarn (Some eset) (Some instanceId)
       "Failed to cache Autobrr release stats" ∈ events run) /\
  (getError KIRC ircKey nil_slice s <> None ->
   let s1 := getState KIRC ircKey nil_slice s in
   let run := GetAutobrrIRCStatus service h c s in
   let fetch := fetchAndCacheIRC service h instanceId ircKey s1 in
   (exists tail, events run = ECacheGet ircKey :: events fetch ++ tail /\
                 filter consults tail = []) /\
   final run = final fetch /\
   (forall s', getError KIRC ircKey nil_slice s' <> None ->
               getState KIRC ircKey nil_slice s' = s1 ->
               GetAutobrrIRCStatus service h c s' = run) /\
   responses (events run) =
     match result fetch with
     | (status, None) => [(StatusOK, BIRC status)]
     | (_, Some e) =>
       if decide (Error e = "service not configured")
       then [(StatusOK, BIRC (make_slice []))]
       else [(if decide (e = DeadlineExceeded \/ e = Canceled)
              then StatusGatewayTimeout else StatusInternalServerError,
              BError (Error e))]
     end /\
   forall cfg status eset,
     GetServiceByInstanceID (db h) instanceId = (Some cfg, None) ->
     URL cfg <> "" ->
     GetIRCStatus service (URL cfg) (APIKey cfg) = (status, None) ->
     (Set_ KIRC ircKey status autobrrIRCCacheDuration s1).1 = Some eset ->
     responses (events run) = [(StatusOK, BIRC status)] /\
     ELog LWarn (Some eset) (Some instanceId)
       "Failed to cache Autobrr IRC status" ∈ events run).
Proof.
  intros instanceId statsKey ircKey Hid.
  subst statsKey ircKey instanceId. split; intros Hmiss s1 run fetch.
  - destruct (stats_miss_run h c s Hid Hmiss) as ((tail & Hev & Htail) & Hfin & Hresp).
    fold s1 in Hev, Hfin, Hresp. fold run in Hev, Hfin, Hresp.
    fold fetch in Hev, Hfin, Hresp.
    split; [exists tail; split; assumption|].
    split; [assumption|].
    split; [intros s' Hmiss' Hsame; apply stats_miss_independent; assumption|].
    split; [assumption|].
    intros cfg stats eset Hcfg Hurl Hup Hset.
    rewrite Hresp, Hev. subst fetch.
    rewrite (fetchAndCacheStats_success h _ _ s1 cfg stats Hcfg Hurl Hup), Hset.
    split; [reflexivity|]. cbn. set_solver.
  - destruct (irc_miss_run h c s Hid Hmiss) as ((tail & Hev & Htail) & Hfin & Hresp).
    fold s1 in Hev, Hfin, Hresp. fold run in Hev, Hfin, Hresp.
    fold fetch in Hev, Hfin, Hresp.
    split; [exists tail; split; assumption|].
    split; [assumption|].
    split; [intros s' Hmiss' Hsame; apply irc_miss_independent; assumption|].
    split; [assumption|].
    intros cfg status eset Hcfg Hurl Hup Hset.
    rewrite Hresp, Hev. subst fetch.
    rewrite (fetchAndCacheIRC_success h _ _ s1 cfg status Hcfg Hurl Hup), Hset.
    split; [reflexivity|]. cbn. set_solver.
Qed.

(** C6.  The statistics key is ["autobrr:stats:"] followed by the instance
    identifier and the IRC key is ["autobrr:irc:"] followed by it: these
    are the keys of the [Get] a handler starts with and of every [Set] of
    its run.  A statistics key never equals an IRC key, and within a
    category two keys are equal only for equal identifiers. *)
Theorem cache_keys_namespaced :
  statsPrefix = "autobrr:stats:" /\ ircPrefix = "autobrr:irc:" /\
  (forall h c s,
     Query c "instanceId" <> "" ->
     let statsKey := statsPrefix +:+ Query c "instanceId" in
     let ircKey := ircPrefix +:+ Query c "instanceId" in
     head (events (GetAutobrrReleaseStats service h c s)) = Some (ECacheGet statsKey) /\
     Forall (fun p => p.1 = statsKey)
       (cacheSets (events (GetAutobrrReleaseStats service h c s))) /\
     head (events (GetAutobrrIRCStatus service h c s)) = Some (ECacheGet ircKey) /\
     Forall (fun p => p.1 = ircKey)
       (cacheSets (events (GetAutobrrIRCStatus service h c s)))) /\
  (forall a b : string, statsPrefix +:+ a <> ircPrefix +:+ b) /\
  (forall a b : string, statsPrefix +:+ a = statsPrefix +:+ b <-> a = b) /\
  (forall a b : string, ircPrefix +:+ a = ircPrefix +:+ b <-> a = b).
Proof.
  split; [reflexivity|]. split; [reflexivity|]. split; [|split; [|split]].
  - intros h c s Hid statsKey ircKey. subst statsKey ircKey.
    split; [|split; [|split]].
    + destruct (getError KStats (statsPrefix +:+ Query c "instanceId")
                  AutobrrStats_zero s) as [e|] eqn:Hget.
      * destruct (stats_miss_run h c s Hid) as ((tail & -> & _) & _);
          [rewrite Hget; discriminate|reflexivity].
      * rewrite (stats_hit_run h c s Hid Hget). reflexivity.
    + destruct (getError KStats (statsPrefix +:+ Query c "instanceId")
                  AutobrrStats_zero s) as [e|] eqn:Hget.
      * destruct (stats_miss_run h c s Hid) as ((tail & -> & Htail) & _);
          [rewrite Hget; discriminate|].
        cbn [cacheSets].
        rewrite cacheSets_app, (cacheSets_no_consults tail Htail), app_nil_r.
        destruct (fetch_cacheSets h (Query c "instanceId")
                    (statsPrefix +:+ Query c "instanceId")
                    (getState KStats (statsPrefix +:+ Query c "instanceId")
                       AutobrrStats_zero s)) as [-> _].
        destruct (result _).2; repeat constructor.
      * rewrite (stats_hit_run h c s Hid Hget). constructor.
    + destruct (getError KIRC (ircPrefix +:+ Query c "instanceId")
                  nil_slice s) as [e|] eqn:Hget.
      * destruct (irc_miss_run h c s Hid) as ((tail & -> & _) & _);
          [rewrite Hget; discriminate|reflexivity].
      * rewrite (irc_hit_run h c s Hid Hget). reflexivity.
    + destruct (getError KIRC (ircPrefix +:+ Query c "instanceId")
                  nil_slice s) as [e|] eqn:Hget.
      * destruct (irc_miss_run h c s Hid) as ((tail & -> & Htail) & _);
          [rewrite Hget; discriminate|].
        cbn [cacheSets].
        rewrite cacheSets_app, (cacheSets_no_consults tail Htail), app_nil_r.
        destruct (fetch_cacheSets h (Query c "instanceId")
                    (ircPrefix +:+ Query c "instanceId")
                    (getState KIRC (ircPrefix +:+ Query c "instanceId")
                       nil_slice s)) as [_ ->].
        destruct (result _).2; repeat constructor.
      * rewrite (irc_hit_run h c s Hid Hget). constructor.
  - intros a b. unfold statsPrefix, ircPrefix. cbn. discriminate.
  - intros a b. split; [apply append_inj_r|intros ->; reflexivity].
  - intros a b. split; [apply append_inj_r|intros ->; reflexivity].
Qed.

(** C8.  The TTL of the release statistics is 10 seconds and the TTL of the
    IRC status is 5 seconds: both positive, at least a second and below a
    minute, the second strictly shorter than the first.  A fetch that
    returns no error performs one [Set], with the TTL of its kind; a fetch
    that returns an error performs none. *)
Theorem cache_ttls h (instanceId cacheKey : string) s :
  autobrrStatsCacheDuration = 10 * Second /\
  autobrrIRCCacheDuration = 5 * Second /\
  0 < autobrrIRCCacheDuration /\
  autobrrIRCCacheDuration < autobrrStatsCacheDuration /\
  Second <= autobrrIRCCacheDuration /\
  autobrrStatsCacheDuration < Minute /\
  cacheSets (events (fetchAndCacheStats service h instanceId cacheKey s)) =
    match (result (fetchAndCacheStats service h instanceId cacheKey s)).2 with
    | None => [(cacheKey, autobrrStatsCacheDuration)]
    | Some _ => []
    end /\
  cacheSets (events (fetchAndCacheIRC service h instanceId cacheKey s)) =
    match (result (fetchAndCacheIRC service h instanceId cacheKey s)).2 with
    | None => [(cacheKey, autobrrIRCCacheDuration)]
    | Some _ => []
    end.
Proof.
  split; [reflexivity|]. split; [reflexivity|].
  split; [reflexivity|]. split; [reflexivity|].
  split; [vm_compute; discriminate|]. split; [reflexivity|].
  apply fetch_cacheSets.
Qed.

End Properties.

(** C7.  [SetupRoutes] builds four rate limiters on the one store, each with
    its own window, maximum and key prefix: ["api:"] (60 per minute),
    ["health:"] (30 per minute), ["auth:"] (30 per minute) and ["tailscale:"]
    (20 per 2 minutes).  The prefixes are pairwise distinct, and no counter
    key of one limiter is a counter key of another.  The tailscale limiter
    has a strictly longer window and a strictly lower maximum than the
    general API limiter. *)
Theorem rate_limiter_classes {S : Type} (store : S) (oidc : bool) :
  let r := routes.SetupRoutes store oidc in
  let api := routes.apiRateLimiter r in
  let health := routes.healthRateLimiter r in
  let auth := routes.authRateLimiter r in
  let tailscale := routes.tailscaleRateLimiter r in
  api = routes.NewRateLimiter store Minute 60 "api:" /\
  health = routes.NewRateLimiter store Minute 30 "health:" /\
  auth = routes.NewRateLimiter store Minute 30 "auth:" /\
  tailscale = routes.NewRateLimiter store (2 * Minute) 20 "tailscale:" /\
  map routes.keyPrefix (routes.limiters r) = ["api:"; "health:"; "auth:"; "tailscale:"] /\
  NoDup (map routes.keyPrefix (routes.limiters r)) /\
  (forall a b : string,
     routes.keyPrefix api +:+ a <> routes.keyPrefix health +:+ b /\
     routes.keyPrefix api +:+ a <> routes.keyPrefix auth +:+ b /\
     routes.keyPrefix api +:+ a <> routes.keyPrefix tailscale +:+ b /\
     routes.keyPrefix health +:+ a <> routes.keyPrefix auth +:+ b /\
     routes.keyPrefix health +:+ a <> routes.keyPrefix tailscale +:+ b /\
     routes.keyPrefix auth +:+ a <> routes.keyPrefix tailscale +:+ b) /\
  routes.window api = Minute /\
  routes.window tailscale = 2 * Minute /\
  routes.window api < routes.window tailscale /\
  routes.limit api = 60 /\
  routes.limit tailscale = 20 /\
  routes.limit tailscale < routes.limit api.
Proof.
  cbn. repeat split; try discriminate.
  repeat (apply NoDup_cons; split;
          [rewrite ?elem_of_cons, elem_of_nil; intuition discriminate|]).
  apply NoDup_nil_2.
Qed.

(** * The handlers on concrete inputs *)

Import fixtures.

(** What the warm store holds. *)
Lemma store_warm_entries :
  entries store_warm !! "autobrr:stats:a"%string =
    Some {| value := CachedStats 42; storedAt := 0; expiresAt := 10 * Second |} /\
  entries store_warm !! "autobrr:irc:a"%string =
    Some {| value := CachedIRC (make_slice ["libera"%string]); storedAt := 0;
            expiresAt := 5 * Second |}.
Proof. split; vm_compute; reflexivity. Qed.

(** C1, counterexample.  The statistics and the IRC status of ["a"] are
    cached at time 0; three seconds later its record is gone from the
    configuration store.  Both handlers answer with the cached payloads, not
    with the empty ones. *)
Lemma unconfigured_instance_served_from_cache :
  unconfigured db_empty "a" /\
  responses (events (GetAutobrrReleaseStats svc_ok h_empty (request "a")
                       (advance (3 * Second) store_warm))) =
    [(StatusOK, BStats (42 : AutobrrStats))] /\
  responses (events (GetAutobrrReleaseStats svc_ok h_empty (request "a")
                       (advance (3 * Second) store_warm))) <>
    [(StatusOK, BStats AutobrrStats_zero)] /\
  responses (events (GetAutobrrIRCStatus svc_ok h_empty (request "a")
                       (advance (3 * Second) store_warm))) =
    [(StatusOK, BIRC (make_slice ["libera"%string]))] /\
  responses (events (GetAutobrrIRCStatus svc_ok h_empty (request "a")
                       (advance (3 * Second) store_warm))) <>
    [(StatusOK, BIRC (make_slice []))].
Proof.
  split; [left; reflexivity|].
  repeat split; vm_compute; try reflexivity; discriminate.
Qed.

(** Instance ["b"] has a record without URL and nothing is cached: both
    handlers answer 200 with the empty payload. *)
Lemma unconfigured_instance_answered_200_witness :
  unconfigured db_a "b" /\
  responses (events (GetAutobrrReleaseStats svc_ok h_a (request "b") store_empty)) =
    [(200, BStats (0 : AutobrrStats))] /\
  responses (events (GetAutobrrIRCStatus svc_ok h_a (request "b") store_empty)) =
    [(200, BIRC (make_slice []))].
Proof.
  assert (Hun : unconfigured db_a "b").
  { right. eexists. split; reflexivity. }
  split; [exact Hun|].
  destruct (unconfigured_instance_answered_200 svc_ok h_a (request "b") store_empty
              ltac:(vm_compute; discriminate) Hun) as (Hstats & Hirc & _).
  split; [apply Hstats|apply Hirc]; vm_compute; discriminate.
Defined.

(** A timed-out, a cancelled and a refused upstream, and an unreadable
    configuration store, on an empty cache. *)
Lemma fetch_failure_status_witness :
  responses (events (GetAutobrrReleaseStats svc_timeout h_a (request "a") store_empty)) =
    [(504, BError "context deadline exceeded")] /\
  responses (events (GetAutobrrIRCStatus svc_timeout h_a (request "a") store_empty)) =
    [(504, BError "context canceled")] /\
  responses (events (GetAutobrrReleaseStats svc_refused h_a (request "a") store_empty)) =
    [(500, BError "connection refused")] /\
  responses (events (GetAutobrrIRCStatus svc_ok h_down (request "a") store_empty)) =
    [(500, BError "database is locked")].
Proof.
  split; [|split; [|split]].
  - apply (fetch_failure_status svc_timeout h_a (request "a") store_empty DeadlineExceeded);
      vm_compute; (discriminate || reflexivity).
  - apply (fetch_failure_status svc_timeout h_a (request "a") store_empty Canceled);
      vm_compute; (discriminate || reflexivity).
  - apply (fetch_failure_status svc_refused h_a (request "a") store_empty
             (errorString "connection refused"));
      vm_compute; (discriminate || reflexivity).
  - apply (fetch_failure_status svc_ok h_down (request "a") store_empty
             (errorString "database is locked"));
      vm_compute; (discriminate || reflexivity).
Defined.

(** C2.  The upstream request of a configured instance runs into its
    deadline, and the adapter hands back what the HTTP client returns: the
    deadline error wrapped in the error of the request.  The error is a
    deadline-exceeded error ([errors.Is] finds [context.DeadlineExceeded] in
    it), yet it is not the sentinel itself, so the comparison with [==]
    fails and the handler answers 500, not 504; the same for a wrapped
    cancellation.  The sentinel itself is answered 504. *)
Theorem wrapped_timeout_answered_500 :
  GetReleaseStats svc_wrapped_timeout "http://autobrr:7474" "k" =
    (0, Some (wrapError
                "Get http://autobrr:7474/api/release/stats: context deadline exceeded"
                DeadlineExceeded)) /\
  errors_Is (wrapError
               "Get http://autobrr:7474/api/release/stats: context deadline exceeded"
               DeadlineExceeded) DeadlineExceeded = true /\
  responses (events (GetAutobrrReleaseStats svc_wrapped_timeout h_a (request "a")
                       store_empty)) =
    [(StatusInternalServerError,
      BError "Get http://autobrr:7474/api/release/stats: context deadline exceeded")] /\
  errors_Is (wrapError "Get http://autobrr:7474/api/irc: context canceled" Canceled)
    Canceled = true /\
  responses (events (GetAutobrrIRCStatus svc_wrapped_timeout h_a (request "a")
                       store_empty)) =
    [(StatusInternalServerError,
      BError "Get http://autobrr:7474/api/irc: context canceled")] /\
  responses (events (GetAutobrrReleaseStats svc_timeout h_a (request "a") store_empty)) =
    [(StatusGatewayTimeout, BError "context deadline exceeded")].
Proof. repeat split; vm_compute; reflexivity. Qed.

(** C3, counterexample.  An entry stored this very instant, and the same
    entry one millisecond later, are younger than any freshness threshold of
    a millisecond or more; a hit on either starts the refresh all the same.
    So no threshold, however small, gates the refresh. *)
Lemma fresh_hit_starts_refresh :
  age store_warm "autobrr:stats:a" = Some 0 /\
  spawned (events (GetAutobrrReleaseStats svc_ok h_a (request "a") store_warm)) =
    [TRefreshStats "a" "autobrr:stats:a"] /\
  age (advance Millisecond store_warm) "autobrr:irc:a" = Some Millisecond /\
  spawned (events (GetAutobrrIRCStatus svc_ok h_a (request "a")
                     (advance Millisecond store_warm))) =
    [TRefreshIRC "a" "autobrr:irc:a"] /\
  ~ (exists threshold : Duration,
       0 <= threshold /\
       forall (c : gin_Context) (s : MemoryStore) (a : Z),
         let cacheKey := statsPrefix +:+ Query c "instanceId" in
         getError KStats cacheKey AutobrrStats_zero s = None ->
         age s cacheKey = Some a ->
         a <= threshold ->
         spawned (events (GetAutobrrReleaseStats svc_ok h_a c s)) = []).
Proof.
  repeat split; try (vm_compute; reflexivity).
  intros (threshold & Hpos & Hgate).
  specialize (Hgate (request "a") store_warm 0).
  cbv zeta in Hgate.
  assert (Hspawn : spawned (events (GetAutobrrReleaseStats svc_ok h_a (request "a")
                                      store_warm)) = []).
  { apply Hgate; [vm_compute; reflexivity|vm_compute; reflexivity|exact Hpos]. }
  vm_compute in Hspawn. discriminate Hspawn.
Qed.

(** A second request for the statistics of ["a"], served from the cache. *)
Lemma hit_serves_cached_and_refreshes_witness :
  events (GetAutobrrReleaseStats svc_ok h_a (request "a") store_warm) =
    [ECacheGet "autobrr:stats:a";
     ELog LDebug None (Some "a"%string) "Serving Autobrr release stats from cache";
     EJSON 200 (BStats (42 : AutobrrStats));
     EGo (TRefreshStats "a" "autobrr:stats:a")] /\
  final (GetAutobrrReleaseStats svc_ok h_a (request "a") store_warm) = store_warm.
Proof.
  destruct (hit_serves_cached_and_refreshes svc_ok h_a (request "a") store_warm
              ltac:(vm_compute; discriminate)) as [Hstats _].
  destruct Hstats as (Hev & Hfin & _); [vm_compute; reflexivity|].
  split; [exact Hev|exact Hfin].
Defined.

(** The mock store, failing on every call: the fetched values are served. *)
Lemma cache_failure_never_propagates_witness :
  getError KStats "autobrr:stats:a" (0 : AutobrrStats) mock_unconfigured =
    Some (errorString "mock not configured") /\
  responses (events (GetAutobrrReleaseStats svc_ok h_a (request "a") mock_unconfigured)) =
    [(200, BStats (42 : AutobrrStats))] /\
  ELog LWarn (Some (errorString "mock not configured")) (Some "a"%string)
    "Failed to cache Autobrr release stats"
    ∈ events (GetAutobrrReleaseStats svc_ok h_a (request "a") mock_unconfigured) /\
  responses (events (GetAutobrrIRCStatus svc_ok h_a (request "a") mock_set_fails)) =
    [(200, BIRC (make_slice ["libera"%string]))].
Proof.
  split; [reflexivity|].
  destruct (cache_failure_never_propagates svc_ok h_a (request "a") mock_unconfigured
              ltac:(vm_compute; discriminate)) as [Hstats _].
  destruct (cache_failure_never_propagates svc_ok h_a (request "a") mock_set_fails
              ltac:(vm_compute; discriminate)) as [_ Hirc].
  destruct Hstats as (_ & _ & _ & _ & Hset); [vm_compute; discriminate|].
  destruct Hirc as (_ & _ & _ & _ & Hset'); [vm_compute; discriminate|].
  destruct (Hset {| InstanceID := "a"; URL := "http://autobrr:7474"; APIKey := "k" |}
              42 (errorString "mock not configured"))
    as [Hresp Hlog]; try reflexivity; [vm_compute; discriminate|].
  destruct (Hset' {| InstanceID := "a"; URL := "http://autobrr:7474"; APIKey := "k" |}
              (make_slice ["libera"%string]) (errorString "connection refused"))
    as [Hresp' _]; try reflexivity; [vm_compute; discriminate|].
  split; [exact Hresp|]. split; [exact Hlog|exact Hresp'].
Defined.

(** A timed-out upstream and an unreadable configuration store leave the
    warm store as it was. *)
Lemma error_results_never_cached_witness :
  (result (fetchAndCacheStats svc_timeout h_a "a" "autobrr:stats:a" store_warm)).2 =
    Some DeadlineExceeded /\
  cacheSets (events (fetchAndCacheStats svc_timeout h_a "a" "autobrr:stats:a"
                       store_warm)) = [] /\
  final (fetchAndCacheStats svc_timeout h_a "a" "autobrr:stats:a" store_warm) =
    store_warm /\
  final (fetchAndCacheIRC svc_ok h_down "a" "autobrr:irc:a" store_warm) = store_warm.
Proof.
  split; [reflexivity|].
  destruct (error_results_never_cached svc_timeout h_a "a" "autobrr:stats:a" store_warm)
    as [Hstats _].
  destruct (error_results_never_cached svc_ok h_down "a" "autobrr:irc:a" store_warm)
    as [_ Hirc].
  destruct Hstats as [Hsets Hfin]; [vm_compute; discriminate|].
  destruct Hirc as [_ Hfin']; [vm_compute; discriminate|].
  split; [exact Hsets|]. split; [exact Hfin|exact Hfin'].
Defined.

(** The keys of instance ["a"], and two identifiers chosen to collide if the
    prefixes allowed it. *)
Lemma cache_keys_namespaced_witness :
  head (events (GetAutobrrReleaseStats svc_ok h_a (request "a") store_empty)) =
    Some (ECacheGet "autobrr:stats:a") /\
  head (events (GetAutobrrIRCStatus svc_ok h_a (request "a") store_empty)) =
    Some (ECacheGet "autobrr:irc:a") /\
  ("autobrr:stats:irc:"%string <> "autobrr:irc:stats:"%string) /\
  ("autobrr:stats:a"%string = "autobrr:stats:a"%string <-> "a"%string = "a"%string).
Proof.
  destruct (cache_keys_namespaced (S:=MemoryStore) svc_ok)
    as (_ & _ & Hkeys & Hcross & Hstats & _).
  destruct (Hkeys h_a (request "a") store_empty ltac:(vm_compute; discriminate))
    as (Hget & _ & Hget' & _).
  split; [exact Hget|]. split; [exact Hget'|].
  split; [exact (Hcross "irc:"%string "stats:"%string)|exact (Hstats "a"%string "a"%string)].
Defined.

(** A request without the parameter and a request with an empty one. *)
Lemma missing_instance_id_rejected_witness :
  noInstanceId request_bare /\
  noInstanceId (request "") /\
  responses (events (GetAutobrrReleaseStats svc_ok h_a request_bare store_warm)) =
    [(400, BError "Instance ID is required")] /\
  final (GetAutobrrReleaseStats svc_ok h_a request_bare store_warm) = store_warm /\
  responses (events (GetAutobrrIRCStatus svc_ok h_a (request "") store_warm)) =
    [(400, BError "Instance ID is required")].
Proof.
  assert (Hbare : noInstanceId request_bare).
  { left. intros v Hin. cbn in Hin. apply elem_of_nil in Hin. exact Hin. }
  assert (Hempty : noInstanceId (request "")).
  { right. reflexivity. }
  split; [exact Hbare|]. split; [exact Hempty|].
  destruct (missing_instance_id_rejected svc_ok h_a request_bare store_warm Hbare)
    as [(Hstats & _ & Hfin) _].
  destruct (missing_instance_id_rejected svc_ok h_a (request "") store_warm Hempty)
    as [_ (Hirc & _ & _)].
  split; [exact Hstats|]. split; [exact Hfin|exact Hirc].
Defined.

(** The adapter hands back part of an answer with its error; the fetch
    returns the zero payload. *)
Lemma error_comes_with_zero_payload_witness :
  GetReleaseStats svc_timeout "http://autobrr:7474" "k" = (7, Some DeadlineExceeded) /\
  (result (fetchAndCacheStats svc_timeout h_a "a" "autobrr:stats:a" store_empty)).2 =
    Some DeadlineExceeded /\
  (result (fetchAndCacheStats svc_timeout h_a "a" "autobrr:stats:a" store_empty)).1 =
    0 /\
  GetIRCStatus svc_timeout "http://autobrr:7474" "k" =
    (make_slice ["libera"%string], Some Canceled) /\
  (result (fetchAndCacheIRC svc_timeout h_a "a" "autobrr:irc:a" store_empty)).1 =
    nil_slice.
Proof.
  split; [reflexivity|].
  destruct (error_comes_with_zero_payload svc_timeout h_a "a" "autobrr:stats:a"
              store_empty) as [Hstats _].
  destruct (error_comes_with_zero_payload svc_timeout h_a "a" "autobrr:irc:a"
              store_empty) as [_ Hirc].
  split; [reflexivity|].
  split; [apply Hstats; vm_compute; discriminate|].
  split; [reflexivity|].
  apply Hirc. vm_compute. discriminate.
Defined.

(** * Further properties of the handlers *)

Section Runs.
Context `{AutobrrTypes} {S : Type} `{!Store S}.
Variable service : AutobrrService.
Implicit Types (h : AutobrrHandler) (c : gin_Context) (s : S).

(** Events without response do not move the first response. *)
Lemma afterResponse_quiet_app (a b : list Event) :
  responses a = [] -> afterResponse (a ++ b) = afterResponse b.
Proof.
  induction a as [|[] a IH]; cbn; intros Hq; try discriminate; auto.
Qed.

(** Every way a fetch of the statistics can go. *)
Lemma fetchAndCacheStats_cases h (instanceId cacheKey : string) s :
  let fetch := fetchAndCacheStats service h instanceId cacheKey s in
  (exists cfg e,
     GetServiceByInstanceID (db h) instanceId = (cfg, Some e) /\
     fetch = ((AutobrrStats_zero, Some e), s, [EDbLookup instanceId])) \/
  (unconfigured (db h) instanceId /\
   fetch = ((AutobrrStats_zero, Some (errorString "service not configured")), s,
            [EDbLookup instanceId])) \/
  (exists cfg part e,
     GetServiceByInstanceID (db h) instanceId = (Some cfg, None) /\ URL cfg <> "" /\
     GetReleaseStats service (URL cfg) (APIKey cfg) = (part, Some e) /\
     fetch = ((AutobrrStats_zero, Some e), s,
              [EDbLookup instanceId; EGetReleaseStats (URL cfg) (APIKey cfg)])) \/
  (exists cfg stats,
     GetServiceByInstanceID (db h) instanceId = (Some cfg, None) /\ URL cfg <> "" /\
     GetReleaseStats service (URL cfg) (APIKey cfg) = (stats, None) /\
     fetch = ((stats, None),
              (Set_ KStats cacheKey stats autobrrStatsCacheDuration s).2,
              [EDbLookup instanceId; EGetReleaseStats (URL cfg) (APIKey cfg);
               ECacheSet KStats cacheKey stats autobrrStatsCacheDuration] ++
              match (Set_ KStats cacheKey stats autobrrStatsCacheDuration s).1 with
              | Some e => [ELog LWarn (Some e) (Some instanceId)
                             "Failed to cache Autobrr release stats"]
              | None => []
              end)).
Proof.
  intros fetch. subst fetch.
  destruct (GetServiceByInstanceID (db h) instanceId) as [[cfg|] [e|]] eqn:Hdb.
  - left. exists (Some cfg), e. split; [reflexivity|].
    unfold fetchAndCacheStats. run. rewrite Hdb. reflexivity.
  - destruct (decide (URL cfg = "")) as [Hurl|Hurl].
    + right; left.
      assert (Hun : unconfigured (db h) instanceId) by (right; eauto).
      split; [exact Hun|]. apply fetch_unconfigured, Hun.
    + destruct (GetReleaseStats service (URL cfg) (APIKey cfg)) as [v [e|]] eqn:Hup.
      * right; right; left. exists cfg, v, e. repeat split; try assumption.
        unfold fetchAndCacheStats. run. rewrite Hdb.
        destruct (decide (URL cfg = "")); [contradiction|]. rewrite Hup. reflexivity.
      * right; right; right. exists cfg, v. repeat split; try assumption.
        apply fetchAndCacheStats_success; assumption.
  - left. exists None, e. split; [reflexivity|].
    unfold fetchAndCacheStats. run. rewrite Hdb. reflexivity.
  - right; left.
    assert (Hun : unconfigured (db h) instanceId) by (left; assumption).
    split; [exact Hun|]. apply fetch_unconfigured, Hun.
Qed.

(** Every way a fetch of the IRC status can go. *)
Lemma fetchAndCacheIRC_cases h (instanceId cacheKey : string) s :
  let fetch := fetchAndCacheIRC service h instanceId cacheKey s in
  (exists cfg e,
     GetServiceByInstanceID (db h) instanceId = (cfg, Some e) /\
     fetch = ((nil_slice, Some e), s, [EDbLookup instanceId])) \/
  (unconfigured (db h) instanceId /\
   fetch = ((nil_slice, Some (errorString "service not configured")), s,
            [EDbLookup instanceId])) \/
  (exists cfg part e,
     GetServiceByInstanceID (db h) instanceId = (Some cfg, None) /\ URL cfg <> "" /\
     GetIRCStatus service (URL cfg) (APIKey cfg) = (part, Some e) /\
     fetch = ((nil_slice, Some e), s,
              [EDbLookup instanceId; EGetIRCStatus (URL cfg) (APIKey cfg)])) \/
  (exists cfg status,
     GetServiceByInstanceID (db h) instanceId = (Some cfg, None) /\ URL cfg <> "" /\
     GetIRCStatus service (URL cfg) (APIKey cfg) = (status, None) /\
     fetch = ((status, None),
              (Set_ KIRC cacheKey status autobrrIRCCacheDuration s).2,
              [EDbLookup instanceId; EGetIRCStatus (URL cfg) (APIKey cfg);
               ECacheSet KIRC cacheKey status autobrrIRCCacheDuration] ++
              match (Set_ KIRC cacheKey status autobrrIRCCacheDuration s).1 with
              | Some e => [ELog LWarn (Some e) (Some instanceId)
                             "Failed to cache Autobrr IRC status"]
              | None => []
              end)).
Proof.
  intros fetch. subst fetch.
  destruct (GetServiceByInstanceID (db h) instanceId) as [[cfg|] [e|]] eqn:Hdb.
  - left. exists (Some cfg), e. split; [reflexivity|].
    unfold fetchAndCacheIRC. run. rewrite Hdb. reflexivity.
  - destruct (decide (URL cfg = "")) as [Hurl|Hurl].
    + right; left.
      assert (Hun : unconfigured (db h) instanceId) by (right; eauto).
      split; [exact Hun|]. apply fetch_unconfigured, Hun.
    + destruct (GetIRCStatus service (URL cfg) (APIKey cfg)) as [v [e|]] eqn:Hup.
      * right; right; left. exists cfg, v, e. repeat split; try assumption.
        unfold fetchAndCacheIRC. run. rewrite Hdb.
        destruct (decide (URL cfg = "")); [contradiction|]. rewrite Hup. reflexivity.
      * right; right; right. exists cfg, v. repeat split; try assumption.
        apply fetchAndCacheIRC_success; assumption.
  - left. exists None, e. split; [reflexivity|].
    unfold fetchAndCacheIRC. run. rewrite Hdb. reflexivity.
  - right; left.
    assert (Hun : unconfigured (db h) instanceId) by (left; assumption).
    split; [exact Hun|]. apply fetch_unconfigured, Hun.
Qed.

(** Every way a request for the statistics can go: no instance; a hit; or a
    [Get] that fails, followed by the fetch and by one of four replies. *)
Lemma stats_run_cases h c s :
  let instanceId := Query c "instanceId" in
  let cacheKey := statsPrefix +:+ instanceId in
  let run := GetAutobrrReleaseStats service h c s in
  (instanceId = "" /\
   run = (tt, s, [ELog LError None None "No instance ID provided";
                  EJSON StatusBadRequest (BError "Instance ID is required")])) \/
  (instanceId <> "" /\ getError KStats cacheKey AutobrrStats_zero s = None /\
   run = (tt, getState KStats cacheKey AutobrrStats_zero s,
          [ECacheGet cacheKey;
           ELog LDebug None (Some instanceId) "Serving Autobrr release stats from cache";
           EJSON StatusOK (BStats (getValue KStats cacheKey AutobrrStats_zero s));
           EGo (TRefreshStats instanceId cacheKey)])) \/
  (instanceId <> "" /\ getError KStats cacheKey AutobrrStats_zero s <> None /\
   exists stats err s2 t reply,
     fetchAndCacheStats service h instanceId cacheKey
       (getState KStats cacheKey AutobrrStats_zero s) = ((stats, err), s2, t) /\
     run = (tt, s2, ECacheGet cacheKey :: t ++ reply) /\
     match err with
     | None =>
       reply = [ELog LDebug None (Some instanceId)
                  "Successfully retrieved and cached autobrr release stats";
                EJSON StatusOK (BStats stats)]
     | Some e =>
       (Error e = "service not configured" /\
        reply = [EJSON StatusOK (BStats AutobrrStats_zero)]) \/
       (Error e <> "service not configured" /\ (e = DeadlineExceeded \/ e = Canceled) /\
        reply = [ELog LError (Some e) (Some instanceId)
                   "Request timeout while fetching Autobrr stats";
                 EJSON StatusGatewayTimeout (BError (Error e))]) \/
       (Error e <> "service not configured" /\ ~ (e = DeadlineExceeded \/ e = Canceled) /\
        reply = [ELog LError (Some e) (Some instanceId) "Failed to fetch Autobrr stats";
                 EJSON StatusInternalServerError (BError (Error e))])
     end).
Proof.
  intros instanceId cacheKey run. subst run.
  destruct (decide (instanceId = "")) as [Hid|Hid].
  { left. split; [exact Hid|].
    unfold GetAutobrrReleaseStats. fold instanceId.
    destruct (decide (instanceId = "")); [reflexivity|contradiction]. }
  right.
  destruct (getError KStats cacheKey AutobrrStats_zero s) as [e0|] eqn:Hget.
  2:{ left. split; [exact Hid|]. split; [reflexivity|].
      apply stats_hit_run; assumption. }
  right. split; [exact Hid|]. split; [discriminate|].
  unfold GetAutobrrReleaseStats. fold instanceId cacheKey.
  destruct (decide (instanceId = "")); [contradiction|].
  unfold getError, getState in *. run.
  destruct (Get KStats cacheKey AutobrrStats_zero s) as [[v [e0'|]] s1];
    cbn [fst snd] in *; [|discriminate].
  destruct (fetchAndCacheStats service h instanceId cacheKey s1)
    as [[[stats [e|]] s2] t]; cbn [fst snd].
  - destruct (decide (Error e = "service not configured")).
    + eexists _, _, _, _, _. split; [reflexivity|]. split; [reflexivity|]. left. auto.
    + destruct (decide (e = DeadlineExceeded \/ e = Canceled)).
      * eexists _, _, _, _, _. split; [reflexivity|]. split; [reflexivity|].
        right; left. auto.
      * eexists _, _, _, _, _. split; [reflexivity|]. split; [reflexivity|].
        right; right. auto.
  - eexists _, _, _, _, _. split; [reflexivity|]. split; reflexivity.
Qed.

(** Every way a request for the IRC status can go. *)
Lemma irc_run_cases h c s :
  let instanceId := Query c "instanceId" in
  let cacheKey := ircPrefix +:+ instanceId in
  let run := GetAutobrrIRCStatus service h c s in
  (instanceId = "" /\
   run = (tt, s, [ELog LError None None "No instance ID provided";
                  EJSON StatusBadRequest (BError "Instance ID is required")])) \/
  (instanceId <> "" /\ getError KIRC cacheKey nil_slice s = None /\
   run = (tt, getState KIRC cacheKey nil_slice s,
          [ECacheGet cacheKey;
           ELog LDebug None (Some instanceId) "Serving Autobrr IRC status from cache";
           EJSON StatusOK (BIRC (getValue KIRC cacheKey nil_slice s));
           EGo (TRefreshIRC instanceId cacheKey)])) \/
  (instanceId <> "" /\ getError KIRC cacheKey nil_slice s <> None /\
   exists status err s2 t reply,
     fetchAndCacheIRC service h instanceId cacheKey
       (getState KIRC cacheKey nil_slice s) = ((status, err), s2, t) /\
     run = (tt, s2, ECacheGet cacheKey :: t ++ reply) /\
     match err with
     | None =>
       reply = [ELog LDebug None (Some instanceId)
                  "Successfully retrieved and cached Autobrr IRC status";
                EJSON StatusOK (BIRC status)]
     | Some e =>
       (Error e = "service not configured" /\
        reply = [EJSON StatusOK (BIRC (make_slice []))]) \/
       (Error e <> "service not configured" /\ (e = DeadlineExceeded \/ e = Canceled) /\
        reply = [ELog LError (Some e) (Some instanceId)
                   "Request timeout while fetching Autobrr IRC status";
                 EJSON StatusGatewayTimeout (BError (Error e))]) \/
       (Error e <> "service not configured" /\ ~ (e = DeadlineExceeded \/ e = Canceled) /\
        reply = [ELog LError (Some e) (Some instanceId)
                   "Failed to fetch Autobrr IRC status";
                 EJSON StatusInternalServerError (BError (Error e))])
     end).
Proof.
  intros instanceId cacheKey run. subst run.
  destruct (decide (instanceId = "")) as [Hid|Hid].
  { left. split; [exact Hid|].
    unfold GetAutobrrIRCStatus. fold instanceId.
    destruct (decide (instanceId = "")); [reflexivity|contradiction]. }
  right.
  destruct (getError KIRC cacheKey nil_slice s) as [e0|] eqn:Hget.
  2:{ left. split; [exact Hid|]. split; [reflexivity|].
      apply irc_hit_run; assumption. }
  right. split; [exact Hid|]. split; [discriminate|].
  unfold GetAutobrrIRCStatus. fold instanceId cacheKey.
  destruct (decide (instanceId = "")); [contradiction|].
  unfold getError, getState in *. run.
  destruct (Get KIRC cacheKey nil_slice s) as [[v [e0'|]] s1];
    cbn [fst snd] in *; [|discriminate].
  destruct (fetchAndCacheIRC service h instanceId cacheKey s1)
    as [[[status [e|]] s2] t]; cbn [fst snd].
  - destruct (decide (Error e = "service not configured")).
    + eexists _, _, _, _, _. split; [reflexivity|]. split; [reflexivity|]. left. auto.
    + destruct (decide (e = DeadlineExceeded \/ e = Canceled)).
      * eexists _, _, _, _, _. split; [reflexivity|]. split; [reflexivity|].
        right; left. auto.
      * eexists _, _, _, _, _. split; [reflexivity|]. split; [reflexivity|].
        right; right. auto.
  - eexists _, _, _, _, _. split; [reflexivity|]. split; reflexivity.
Qed.

(** Take a run apart: first the cases of the handler, then, past a failed
    [Get], the cases of the fetch and of the [Set].  What is left of the
    run is a list of events written out. *)
Ltac split_reply err Hreply :=
  destruct err as [?e|];
  [ destruct Hreply as [(?Hmsg & ->)|[(?Hmsg & ?Hto & ->)|(?Hmsg & ?Hto & ->)]]
  | rewrite Hreply ].

Ltac split_set :=
  match goal with
  | |- context [Set_ ?k ?key ?v ?ttl ?s] =>
    destruct (Set_ k key v ttl s) as [[?eset|] ?sset] eqn:?Hset
  | _ => idtac
  end.

Ltac stats_shapes h c s :=
  let Hrun := fresh "Hrun" in
  let Hreply := fresh "Hreply" in
  let Hfetch := fresh "Hfetch" in
  let Hf := fresh "Hf" in
  let err := fresh "err" in
  destruct (stats_run_cases h c s) as
    [(?Hid & Hrun)
    |[(?Hid & ?Hget & Hrun)
     |(?Hid & ?Hget & ?stats & err & ?s2 & ?t & ?reply & Hfetch & Hrun & Hreply)]];
  rewrite ?Hrun;
  [ | | split_reply err Hreply;
        (destruct (fetchAndCacheStats_cases h (Query c "instanceId")
                     (statsPrefix +:+ Query c "instanceId")
                     (getState KStats (statsPrefix +:+ Query c "instanceId")
                        AutobrrStats_zero s))
           as [(?cfg & ?e' & ?Hdb & Hf)
              |[(?Hun & Hf)
               |[(?cfg & ?part & ?e' & ?Hdb & ?Hurl & ?Hup & Hf)
                |(?cfg & ?v & ?Hdb & ?Hurl & ?Hup & Hf)]]];
         cbv zeta in Hf; rewrite Hf in Hfetch; simplify_eq; split_set) ].

Ltac irc_shapes h c s :=
  let Hrun := fresh "Hrun" in
  let Hreply := fresh "Hreply" in
  let Hfetch := fresh "Hfetch" in
  let Hf := fresh "Hf" in
  let err := fresh "err" in
  destruct (irc_run_cases h c s) as
    [(?Hid & Hrun)
    |[(?Hid & ?Hget & Hrun)
     |(?Hid & ?Hget & ?status & err & ?s2 & ?t & ?reply & Hfetch & Hrun & Hreply)]];
  rewrite ?Hrun;
  [ | | split_reply err Hreply;
        (destruct (fetchAndCacheIRC_cases h (Query c "instanceId")
                     (ircPrefix +:+ Query c "instanceId")
                     (getState KIRC (ircPrefix +:+ Query c "instanceId")
                        nil_slice s))
           as [(?cfg & ?e' & ?Hdb & Hf)
              |[(?Hun & Hf)
               |[(?cfg & ?part & ?e' & ?Hdb & ?Hurl & ?Hup & Hf)
                |(?cfg & ?v & ?Hdb & ?Hurl & ?Hup & Hf)]]];
         cbv zeta in Hf; rewrite Hf in Hfetch; simplify_eq; split_set) ].

(** The goroutines a run starts: one refresh, of the instance and under the
    key of the request, exactly on a hit. *)
Lemma handlers_spawned h c s :
  let instanceId := Query c "instanceId" in
  spawned (events (GetAutobrrReleaseStats service h c s)) =
    (if decide (instanceId <> "" /\
                getError KStats (statsPrefix +:+ instanceId) AutobrrStats_zero s = None)
     then [TRefreshStats instanceId (statsPrefix +:+ instanceId)] else []) /\
  spawned (events (GetAutobrrIRCStatus service h c s)) =
    (if decide (instanceId <> "" /\
                getError KIRC (ircPrefix +:+ instanceId) nil_slice s = None)
     then [TRefreshIRC instanceId (ircPrefix +:+ instanceId)] else []).
Proof.
  intros instanceId. subst instanceId. split.
  - stats_shapes h c s; cbn; destruct (decide _) as [[Hi Hg]|Hc];
      first [reflexivity | contradiction | exfalso; apply Hc; split; assumption].
  - irc_shapes h c s; cbn; destruct (decide _) as [[Hi Hg]|Hc];
      first [reflexivity | contradiction | exfalso; apply Hc; split; assumption].
Qed.

(** X1.  Whatever the request, the store, the configuration store and the
    upstream do, a handler writes exactly one response, and its status and
    body agree (200 with a payload of the handler's kind, or 400, 500, 504
    with an error message).  After the response the handler function does
    one thing only, and only on a hit: it starts the goroutine that
    refreshes the entry of the request.  The calls of that goroutine to the
    configuration store, the upstream and the cache therefore follow the
    response; on every other path nothing follows it. *)
Theorem handler_single_response h c s :
  let instanceId := Query c "instanceId" in
  (exists r, responses (events (GetAutobrrReleaseStats service h c s)) = [r] /\
             wellFormedResponse KStats r) /\
  spawned (events (GetAutobrrReleaseStats service h c s)) =
    (if decide (instanceId <> "" /\
                getError KStats (statsPrefix +:+ instanceId) AutobrrStats_zero s = None)
     then [TRefreshStats instanceId (statsPrefix +:+ instanceId)] else []) /\
  afterResponse (events (GetAutobrrReleaseStats service h c s)) =
    map EGo (spawned (events (GetAutobrrReleaseStats service h c s))) /\
  (exists r, responses (events (GetAutobrrIRCStatus service h c s)) = [r] /\
             wellFormedResponse KIRC r) /\
  spawned (events (GetAutobrrIRCStatus service h c s)) =
    (if decide (instanceId <> "" /\
                getError KIRC (ircPrefix +:+ instanceId) nil_slice s = None)
     then [TRefreshIRC instanceId (ircPrefix +:+ instanceId)] else []) /\
  afterResponse (events (GetAutobrrIRCStatus service h c s)) =
    map EGo (spawned (events (GetAutobrrIRCStatus service h c s))).
Proof.
  intros instanceId. subst instanceId.
  destruct (handlers_spawned h c s) as [Hstats Hirc].
  split; [|split; [exact Hstats|split; [|split; [|split; [exact Hirc|]]]]].
  - stats_shapes h c s; cbn; eexists; (split; [reflexivity|]); cbn; auto.
  - stats_shapes h c s; reflexivity.
  - irc_shapes h c s; cbn; eexists; (split; [reflexivity|]); cbn; auto.
  - irc_shapes h c s; reflexivity.
Qed.

(** X2.  A run consults its collaborators in a fixed order and each at most
    once: the cache [Get] under the handler's key, the configuration store,
    the upstream adapter, the cache [Set] under the same key with the TTL of
    the handler.  A run may stop after any of them. *)
Theorem handler_call_order h c s :
  let instanceId := Query c "instanceId" in
  (exists url apiKey v,
     List.filter consults (events (GetAutobrrReleaseStats service h c s)) `prefix_of`
       [ECacheGet (statsPrefix +:+ instanceId); EDbLookup instanceId;
        EGetReleaseStats url apiKey;
        ECacheSet KStats (statsPrefix +:+ instanceId) v autobrrStatsCacheDuration]) /\
  (exists url apiKey v,
     List.filter consults (events (GetAutobrrIRCStatus service h c s)) `prefix_of`
       [ECacheGet (ircPrefix +:+ instanceId); EDbLookup instanceId;
        EGetIRCStatus url apiKey;
        ECacheSet KIRC (ircPrefix +:+ instanceId) v autobrrIRCCacheDuration]).
Proof.
  intros instanceId. subst instanceId. split.
  - stats_shapes h c s; cbn;
      first [ solve [exists "", "", AutobrrStats_zero; eexists; reflexivity]
            | solve [eexists _, _, AutobrrStats_zero; eexists; reflexivity]
            | solve [eexists _, _, _; eexists; reflexivity] ].
  - irc_shapes h c s; cbn;
      first [ solve [exists "", "", nil_slice; eexists; reflexivity]
            | solve [eexists _, _, nil_slice; eexists; reflexivity]
            | solve [eexists _, _, _; eexists; reflexivity] ].
Qed.

(** The calls of a handler function to the upstream adapter. *)
Lemma handler_upstream_calls h c s :
  let instanceId := Query c "instanceId" in
  List.filter isUpstream (events (GetAutobrrReleaseStats service h c s)) =
    (if decide (instanceId <> "" /\
                getError KStats (statsPrefix +:+ instanceId) AutobrrStats_zero s <> None)
     then match GetServiceByInstanceID (db h) instanceId with
          | (Some cfg, None) =>
            if decide (URL cfg = "") then []
            else [EGetReleaseStats (URL cfg) (APIKey cfg)]
          | _ => []
          end
     else []) /\
  List.filter isUpstream (events (GetAutobrrIRCStatus service h c s)) =
    (if decide (instanceId <> "" /\
                getError KIRC (ircPrefix +:+ instanceId) nil_slice s <> None)
     then match GetServiceByInstanceID (db h) instanceId with
          | (Some cfg, None) =>
            if decide (URL cfg = "") then []
            else [EGetIRCStatus (URL cfg) (APIKey cfg)]
          | _ => []
          end
     else []).
Proof.
  intros instanceId. subst instanceId.
  split.
  - stats_shapes h c s; cbn;
      (destruct (decide _) as [[Hi Hg]|Hc];
       [|first [reflexivity | exfalso; apply Hc; split; assumption]]);
      try contradiction;
      first [ rewrite Hdb
            | destruct Hun as [->|(?cfg & -> & ?Hurl)] ];
      repeat case_match; simplify_eq; try reflexivity; contradiction.
  - irc_shapes h c s; cbn;
      (destruct (decide _) as [[Hi Hg]|Hc];
       [|first [reflexivity | exfalso; apply Hc; split; assumption]]);
      try contradiction;
      first [ rewrite Hdb
            | destruct Hun as [->|(?cfg & -> & ?Hurl)] ];
      repeat case_match; simplify_eq; try reflexivity; contradiction.
Qed.

(** The calls of a refresh goroutine to the upstream adapter. *)
Lemma task_upstream_calls h (t : Task) s :
  List.filter isUpstream (events (runTask service h t s)) =
    match t with
    | TRefreshStats instanceId _ =>
      match GetServiceByInstanceID (db h) instanceId with
      | (Some cfg, None) =>
        if decide (URL cfg = "") then []
        else [EGetReleaseStats (URL cfg) (APIKey cfg)]
      | _ => []
      end
    | TRefreshIRC instanceId _ =>
      match GetServiceByInstanceID (db h) instanceId with
      | (Some cfg, None) =>
        if decide (URL cfg = "") then []
        else [EGetIRCStatus (URL cfg) (APIKey cfg)]
      | _ => []
      end
    end.
Proof.
  destruct t as [instanceId cacheKey|instanceId cacheKey]; cbn [runTask].
  - unfold refreshStatsCache, bind.
    destruct (fetchAndCacheStats_cases h instanceId cacheKey s)
      as [(cfg & e & Hdb & Hf)
         |[(Hun & Hf)
          |[(cfg & part & e & Hdb & Hurl & Hup & Hf)
           |(cfg & v & Hdb & Hurl & Hup & Hf)]]];
      cbv zeta in Hf; rewrite Hf; split_set;
      first [ rewrite Hdb | destruct Hun as [->|(?cfg & -> & ?Hurl)] ];
      cbn; repeat (case_decide; cbn); try reflexivity; try contradiction;
      destruct cfg; reflexivity.
  - unfold refreshIRCCache, bind.
    destruct (fetchAndCacheIRC_cases h instanceId cacheKey s)
      as [(cfg & e & Hdb & Hf)
         |[(Hun & Hf)
          |[(cfg & part & e & Hdb & Hurl & Hup & Hf)
           |(cfg & v & Hdb & Hurl & Hup & Hf)]]];
      cbv zeta in Hf; rewrite Hf; split_set;
      first [ rewrite Hdb | destruct Hun as [->|(?cfg & -> & ?Hurl)] ];
      cbn; repeat (case_decide; cbn); try reflexivity; try contradiction;
      destruct cfg; reflexivity.
Qed.

(** X4.  Whenever a run stores a payload in the cache, that payload is the
    one the upstream just returned without error for the instance's record,
    it is stored under the handler's key with the handler's TTL, and it is
    the body of the 200 response of that run, also when the [Set] fails.
    A handler stores at most one payload and never one of the other kind. *)
Theorem stored_payload_is_served h c s :
  let instanceId := Query c "instanceId" in
  let stats_evs := events (GetAutobrrReleaseStats service h c s) in
  let irc_evs := events (GetAutobrrIRCStatus service h c s) in
  (setsOf KStats stats_evs = [] \/
   exists cfg stats,
     GetServiceByInstanceID (db h) instanceId = (Some cfg, None) /\
     GetReleaseStats service (URL cfg) (APIKey cfg) = (stats, None) /\
     setsOf KStats stats_evs =
       [(statsPrefix +:+ instanceId, stats, autobrrStatsCacheDuration)] /\
     responses stats_evs = [(StatusOK, BStats stats)]) /\
  setsOf KIRC stats_evs = [] /\
  (setsOf KIRC irc_evs = [] \/
   exists cfg status,
     GetServiceByInstanceID (db h) instanceId = (Some cfg, None) /\
     GetIRCStatus service (URL cfg) (APIKey cfg) = (status, None) /\
     setsOf KIRC irc_evs =
       [(ircPrefix +:+ instanceId, status, autobrrIRCCacheDuration)] /\
     responses irc_evs = [(StatusOK, BIRC status)]) /\
  setsOf KStats irc_evs = [].
Proof.
  intros instanceId stats_evs irc_evs. subst stats_evs irc_evs instanceId.
  assert (Hs : (setsOf KStats (events (GetAutobrrReleaseStats service h c s)) = [] \/
                exists cfg stats,
                  GetServiceByInstanceID (db h) (Query c "instanceId") = (Some cfg, None) /\
                  GetReleaseStats service (URL cfg) (APIKey cfg) = (stats, None) /\
                  setsOf KStats (events (GetAutobrrReleaseStats service h c s)) =
                    [(statsPrefix +:+ Query c "instanceId", stats,
                      autobrrStatsCacheDuration)] /\
                  responses (events (GetAutobrrReleaseStats service h c s)) =
                    [(StatusOK, BStats stats)]) /\
               setsOf KIRC (events (GetAutobrrReleaseStats service h c s)) = []).
  { stats_shapes h c s; cbn; (split; [|reflexivity]);
      first [ left; reflexivity
            | right; eexists _, _; repeat split; eassumption ]. }
  assert (Hi : (setsOf KIRC (events (GetAutobrrIRCStatus service h c s)) = [] \/
                exists cfg status,
                  GetServiceByInstanceID (db h) (Query c "instanceId") = (Some cfg, None) /\
                  GetIRCStatus service (URL cfg) (APIKey cfg) = (status, None) /\
                  setsOf KIRC (events (GetAutobrrIRCStatus service h c s)) =
                    [(ircPrefix +:+ Query c "instanceId", status,
                      autobrrIRCCacheDuration)] /\
                  responses (events (GetAutobrrIRCStatus service h c s)) =
                    [(StatusOK, BIRC status)]) /\
               setsOf KStats (events (GetAutobrrIRCStatus service h c s)) = []).
  { irc_shapes h c s; cbn; (split; [|reflexivity]);
      first [ left; reflexivity
            | right; eexists _, _; repeat split; eassumption ]. }
  tauto.
Qed.

(** X5.  Errors are told apart by their message: when the configuration
    store or the upstream fails with an error whose message is "service not
    configured", the handler answers as for an instance without record, with
    status 200 and the empty payload, and logs nothing at error level. *)
Theorem not_configured_message_hides_failure h c s (e : error) :
  let instanceId := Query c "instanceId" in
  instanceId <> "" ->
  Error e = "service not configured" ->
  (getError KStats (statsPrefix +:+ instanceId) AutobrrStats_zero s <> None ->
   ((exists cfg, GetServiceByInstanceID (db h) instanceId = (cfg, Some e)) \/
    (exists cfg part,
       GetServiceByInstanceID (db h) instanceId = (Some cfg, None) /\ URL cfg <> "" /\
       GetReleaseStats service (URL cfg) (APIKey cfg) = (part, Some e))) ->
   responses (events (GetAutobrrReleaseStats service h c s)) =
     [(StatusOK, BStats AutobrrStats_zero)] /\
   errorLogs (events (GetAutobrrReleaseStats service h c s)) = []) /\
  (getError KIRC (ircPrefix +:+ instanceId) nil_slice s <> None ->
   ((exists cfg, GetServiceByInstanceID (db h) instanceId = (cfg, Some e)) \/
    (exists cfg part,
       GetServiceByInstanceID (db h) instanceId = (Some cfg, None) /\ URL cfg <> "" /\
       GetIRCStatus service (URL cfg) (APIKey cfg) = (part, Some e))) ->
   responses (events (GetAutobrrIRCStatus service h c s)) =
     [(StatusOK, BIRC (make_slice []))] /\
   errorLogs (events (GetAutobrrIRCStatus service h c s)) = []).
Proof.
  intros instanceId Hne Hmsg'. subst instanceId.
  split; intros Hmiss Hsrc.
  - stats_shapes h c s; try contradiction;
      try (destruct Hun as [Hun|(?cfg & Hun & ?Hurl)]);
      destruct Hsrc as [(cfg1 & Hsrc)|(cfg1 & part1 & Hsrc & Hurl1 & Hup1)];
      first [congruence | cbn; split; reflexivity].
  - irc_shapes h c s; try contradiction;
      try (destruct Hun as [Hun|(?cfg & Hun & ?Hurl)]);
      destruct Hsrc as [(cfg1 & Hsrc)|(cfg1 & part1 & Hsrc & Hurl1 & Hup1)];
      first [congruence | cbn; split; reflexivity].
Qed.

(** X6.  A refresh goroutine writes no response and starts no goroutine; it
    makes the calls of one fetch and leaves the store as that fetch leaves
    it.  When the fetch fails the store is left exactly as the goroutine
    found it: a failed refresh does not evict the entry. *)
Theorem refresh_is_silent h (t : Task) s :
  let run := runTask service h t s in
  let fetch_calls :=
    match t with
    | TRefreshStats instanceId cacheKey =>
      List.filter consults (events (fetchAndCacheStats service h instanceId cacheKey s))
    | TRefreshIRC instanceId cacheKey =>
      List.filter consults (events (fetchAndCacheIRC service h instanceId cacheKey s))
    end in
  let fetch_state :=
    match t with
    | TRefreshStats instanceId cacheKey =>
      final (fetchAndCacheStats service h instanceId cacheKey s)
    | TRefreshIRC instanceId cacheKey =>
      final (fetchAndCacheIRC service h instanceId cacheKey s)
    end in
  let fetch_error :=
    match t with
    | TRefreshStats instanceId cacheKey =>
      (result (fetchAndCacheStats service h instanceId cacheKey s)).2
    | TRefreshIRC instanceId cacheKey =>
      (result (fetchAndCacheIRC service h instanceId cacheKey s)).2
    end in
  responses (events run) = [] /\
  spawned (events run) = [] /\
  List.filter consults (events run) = fetch_calls /\
  final run = fetch_state /\
  (fetch_error <> None -> final run = s).
Proof.
  destruct t as [instanceId cacheKey|instanceId cacheKey]; cbn [runTask];
    cbv zeta.
  - unfold refreshStatsCache, bind.
    destruct (fetchAndCacheStats_cases h instanceId cacheKey s)
      as [(cfg & e & Hdb & Hf)
         |[(Hun & Hf)
          |[(cfg & part & e & Hdb & Hurl & Hup & Hf)
           |(cfg & v & Hdb & Hurl & Hup & Hf)]]];
      cbv zeta in Hf; rewrite Hf; split_set; cbn;
      repeat case_decide; cbn; repeat split; congruence.
  - unfold refreshIRCCache, bind.
    destruct (fetchAndCacheIRC_cases h instanceId cacheKey s)
      as [(cfg & e & Hdb & Hf)
         |[(Hun & Hf)
          |[(cfg & part & e & Hdb & Hurl & Hup & Hf)
           |(cfg & v & Hdb & Hurl & Hup & Hf)]]];
      cbv zeta in Hf; rewrite Hf; split_set; cbn;
      repeat case_decide; cbn; repeat split; congruence.
Qed.

(** X7.  A refresh goroutine logs at error level exactly when its fetch
    fails with an error whose message is not "service not configured", and
    then logs that error once; a failed [Set] and an instance without record
    are not logged at error level. *)
Theorem refresh_error_logging h (t : Task) s :
  let fetch_error :=
    match t with
    | TRefreshStats instanceId cacheKey =>
      (result (fetchAndCacheStats service h instanceId cacheKey s)).2
    | TRefreshIRC instanceId cacheKey =>
      (result (fetchAndCacheIRC service h instanceId cacheKey s)).2
    end in
  errorLogs (events (runTask service h t s)) =
    match fetch_error with
    | Some e => if decide (Error e = "service not configured") then [] else [Some e]
    | None => []
    end.
Proof.
  destruct t as [instanceId cacheKey|instanceId cacheKey]; cbn [runTask];
    cbv zeta.
  - unfold refreshStatsCache, bind.
    destruct (fetchAndCacheStats_cases h instanceId cacheKey s)
      as [(cfg & e & Hdb & Hf)
         |[(Hun & Hf)
          |[(cfg & part & e & Hdb & Hurl & Hup & Hf)
           |(cfg & v & Hdb & Hurl & Hup & Hf)]]];
      cbv zeta in Hf; rewrite Hf; split_set; cbn;
      repeat case_decide; cbn; congruence.
  - unfold refreshIRCCache, bind.
    destruct (fetchAndCacheIRC_cases h instanceId cacheKey s)
      as [(cfg & e & Hdb & Hf)
         |[(Hun & Hf)
          |[(cfg & part & e & Hdb & Hurl & Hup & Hf)
           |(cfg & v & Hdb & Hurl & Hup & Hf)]]];
      cbv zeta in Hf; rewrite Hf; split_set; cbn;
      repeat case_decide; cbn; congruence.
Qed.

(** A hit, whoever serves it: the response and the calls. *)
Lemma stats_hit_observed (service' : AutobrrService) h c s :
  Query c "instanceId" <> "" ->
  getError KStats (statsPrefix +:+ Query c "instanceId") AutobrrStats_zero s = None ->
  responses (events (GetAutobrrReleaseStats service' h c s)) =
    [(StatusOK,
      BStats (getValue KStats (statsPrefix +:+ Query c "instanceId") AutobrrStats_zero s))] /\
  List.filter consults (events (GetAutobrrReleaseStats service' h c s)) =
    [ECacheGet (statsPrefix +:+ Query c "instanceId")].
Proof.
  intros Hid Hhit. unfold GetAutobrrReleaseStats.
  destruct (decide (Query c "instanceId" = "")) as [|_]; [contradiction|].
  run.
  destruct (Get KStats (statsPrefix +:+ Query c "instanceId") AutobrrStats_zero s)
    as [[v [e0|]] s1]; cbn [fst snd] in *; [congruence|]. split; reflexivity.
Qed.

Lemma irc_hit_observed (service' : AutobrrService) h c s :
  Query c "instanceId" <> "" ->
  getError KIRC (ircPrefix +:+ Query c "instanceId") nil_slice s = None ->
  responses (events (GetAutobrrIRCStatus service' h c s)) =
    [(StatusOK, BIRC (getValue KIRC (ircPrefix +:+ Query c "instanceId") nil_slice s))] /\
  List.filter consults (events (GetAutobrrIRCStatus service' h c s)) =
    [ECacheGet (ircPrefix +:+ Query c "instanceId")].
Proof.
  intros Hid Hhit. unfold GetAutobrrIRCStatus.
  destruct (decide (Query c "instanceId" = "")) as [|_]; [contradiction|].
  run.
  destruct (Get KIRC (ircPrefix +:+ Query c "instanceId") nil_slice s)
    as [[v [e0|]] s1]; cbn [fst snd] in *; [congruence|]. split; reflexivity.
Qed.

(** X8.  Read-through.  Take a request that misses the cache while the
    record is usable and the upstream answers.  The store is left as the
    [Set] of the answer leaves it; and if a [Get] on that state returns the
    answer, the next request for the instance is answered 200 with it after
    the [Get] alone, whatever the configuration store and the upstream say
    by then. *)
Theorem read_through h c s cfg :
  let instanceId := Query c "instanceId" in
  instanceId <> "" ->
  GetServiceByInstanceID (db h) instanceId = (Some cfg, None) ->
  URL cfg <> "" ->
  (forall stats,
     let cacheKey := statsPrefix +:+ instanceId in
     let s2 := (Set_ KStats cacheKey stats autobrrStatsCacheDuration
                  (getState KStats cacheKey AutobrrStats_zero s)).2 in
     getError KStats cacheKey AutobrrStats_zero s <> None ->
     GetReleaseStats service (URL cfg) (APIKey cfg) = (stats, None) ->
     final (GetAutobrrReleaseStats service h c s) = s2 /\
     (getError KStats cacheKey AutobrrStats_zero s2 = None ->
      getValue KStats cacheKey AutobrrStats_zero s2 = stats ->
      forall service' h',
        responses (events (GetAutobrrReleaseStats service' h' c s2)) =
          [(StatusOK, BStats stats)] /\
        List.filter consults (events (GetAutobrrReleaseStats service' h' c s2)) =
          [ECacheGet cacheKey])) /\
  (forall status,
     let cacheKey := ircPrefix +:+ instanceId in
     let s2 := (Set_ KIRC cacheKey status autobrrIRCCacheDuration
                  (getState KIRC cacheKey nil_slice s)).2 in
     getError KIRC cacheKey nil_slice s <> None ->
     GetIRCStatus service (URL cfg) (APIKey cfg) = (status, None) ->
     final (GetAutobrrIRCStatus service h c s) = s2 /\
     (getError KIRC cacheKey nil_slice s2 = None ->
      getValue KIRC cacheKey nil_slice s2 = status ->
      forall service' h',
        responses (events (GetAutobrrIRCStatus service' h' c s2)) =
          [(StatusOK, BIRC status)] /\
        List.filter consults (events (GetAutobrrIRCStatus service' h' c s2)) =
          [ECacheGet cacheKey])).
Proof.
  intros instanceId Hid Hdb Hurl. subst instanceId.
  split; intros v cacheKey s2 Hmiss Hup; subst cacheKey s2.
  - split.
    + destruct (stats_miss_run service h c s Hid Hmiss) as (_ & -> & _).
      rewrite (fetchAndCacheStats_success service h _ _ _ cfg v Hdb Hurl Hup). reflexivity.
    + intros Hhit Hval service' h'.
      destruct (stats_hit_observed service' h' c _ Hid Hhit) as [-> ->].
      rewrite Hval. split; reflexivity.
  - split.
    + destruct (irc_miss_run service h c s Hid Hmiss) as (_ & -> & _).
      rewrite (fetchAndCacheIRC_success service h _ _ _ cfg v Hdb Hurl Hup). reflexivity.
    + intros Hhit Hval service' h'.
      destruct (irc_hit_observed service' h' c _ Hid Hhit) as [-> ->].
      rewrite Hval. split; reflexivity.
Qed.

(** X9.  Refresh-ahead.  When the goroutine a hit started runs while the
    record is usable and the upstream answers, it leaves the store as the
    [Set] of the new answer leaves it; and if a [Get] on that state returns
    the new answer, the next request is answered 200 with the new answer. *)
Theorem refresh_updates_entry h c s cfg :
  let instanceId := Query c "instanceId" in
  instanceId <> "" ->
  GetServiceByInstanceID (db h) instanceId = (Some cfg, None) ->
  URL cfg <> "" ->
  (forall stats,
     let cacheKey := statsPrefix +:+ instanceId in
     let s2 := (Set_ KStats cacheKey stats autobrrStatsCacheDuration s).2 in
     GetReleaseStats service (URL cfg) (APIKey cfg) = (stats, None) ->
     final (runTask service h (TRefreshStats instanceId cacheKey) s) = s2 /\
     (getError KStats cacheKey AutobrrStats_zero s2 = None ->
      getValue KStats cacheKey AutobrrStats_zero s2 = stats ->
      forall service' h',
        responses (events (GetAutobrrReleaseStats service' h' c s2)) =
          [(StatusOK, BStats stats)])) /\
  (forall status,
     let cacheKey := ircPrefix +:+ instanceId in
     let s2 := (Set_ KIRC cacheKey status autobrrIRCCacheDuration s).2 in
     GetIRCStatus service (URL cfg) (APIKey cfg) = (status, None) ->
     final (runTask service h (TRefreshIRC instanceId cacheKey) s) = s2 /\
     (getError KIRC cacheKey nil_slice s2 = None ->
      getValue KIRC cacheKey nil_slice s2 = status ->
      forall service' h',
        responses (events (GetAutobrrIRCStatus service' h' c s2)) =
          [(StatusOK, BIRC status)])).
Proof.
  intros instanceId Hid Hdb Hurl. subst instanceId.
  split; intros v cacheKey s2 Hup; subst cacheKey s2; cbn [runTask].
  - split.
    + unfold refreshStatsCache, bind.
      rewrite (fetchAndCacheStats_success service h _ _ s cfg v Hdb Hurl Hup). reflexivity.
    + intros Hhit Hval service' h'.
      destruct (stats_hit_observed service' h' c _ Hid Hhit) as [-> _].
      rewrite Hval. reflexivity.
  - split.
    + unfold refreshIRCCache, bind.
      rewrite (fetchAndCacheIRC_success service h _ _ s cfg v Hdb Hurl Hup). reflexivity.
    + intros Hhit Hval service' h'.
      destruct (irc_hit_observed service' h' c _ Hid Hhit) as [-> _].
      rewrite Hval. reflexivity.
Qed.

(** X17.  A run that answers with a status other than 200 has performed no
    [Set]: it leaves the store untouched when the request names no instance,
    and as the [Get] left it otherwise. *)
Theorem error_response_leaves_cache h c s (status : Z) (body : Body) :
  status <> StatusOK ->
  (responses (events (GetAutobrrReleaseStats service h c s)) = [(status, body)] ->
   cacheSets (events (GetAutobrrReleaseStats service h c s)) = [] /\
   final (GetAutobrrReleaseStats service h c s) =
     if decide (Query c "instanceId" = "") then s
     else getState KStats (statsPrefix +:+ Query c "instanceId") AutobrrStats_zero s) /\
  (responses (events (GetAutobrrIRCStatus service h c s)) = [(status, body)] ->
   cacheSets (events (GetAutobrrIRCStatus service h c s)) = [] /\
   final (GetAutobrrIRCStatus service h c s) =
     if decide (Query c "instanceId" = "") then s
     else getState KIRC (ircPrefix +:+ Query c "instanceId") nil_slice s).
Proof.
  intros Hstatus. split.
  - stats_shapes h c s; cbn; intros Hresp; simplify_eq;
      destruct (decide (Query c "instanceId" = ""));
      first [contradiction | split; reflexivity].
  - irc_shapes h c s; cbn; intros Hresp; simplify_eq;
      destruct (decide (Query c "instanceId" = ""));
      first [contradiction | split; reflexivity].
Qed.

(** X18.  A handler logs at error level exactly when it answers with a
    status other than 200, and then once: a 200 response, also one served
    after a failed [Set] or for an instance without record, comes with no
    error-level entry. *)
Theorem error_logged_iff_error_status h c s :
  (exists status body,
     responses (events (GetAutobrrReleaseStats service h c s)) = [(status, body)] /\
     length (errorLogs (events (GetAutobrrReleaseStats service h c s))) =
       if decide (status = StatusOK) then 0%nat else 1%nat) /\
  (exists status body,
     responses (events (GetAutobrrIRCStatus service h c s)) = [(status, body)] /\
     length (errorLogs (events (GetAutobrrIRCStatus service h c s))) =
       if decide (status = StatusOK) then 0%nat else 1%nat).
Proof.
  split.
  - stats_shapes h c s; cbn; eexists _, _; (split; [reflexivity|]); reflexivity.
  - irc_shapes h c s; cbn; eexists _, _; (split; [reflexivity|]); reflexivity.
Qed.

End Runs.

(** X3.  The handler function calls the upstream adapter exactly when the
    request names an instance, the cache [Get] fails, and the configuration
    store returns, without error, a record with a non-empty URL.  On a hit
    the handler function does not call it: the refresh goroutine it starts
    does, exactly when the configuration store returns such a record at the
    time the goroutine runs.  Either makes the call once, with the URL and
    the API key of the record it has just looked up and by the method of
    the handler; the adapter is never called with an empty URL. *)
Theorem upstream_called_with_record `{AutobrrTypes} {S : Type} `{!Store S}
  (service : AutobrrService) (h : AutobrrHandler) (c : gin_Context) (s : S) :
  let instanceId := Query c "instanceId" in
  let statsKey := statsPrefix +:+ instanceId in
  let ircKey := ircPrefix +:+ instanceId in
  List.filter isUpstream (events (GetAutobrrReleaseStats service h c s)) =
    (if decide (instanceId <> "" /\
                getError KStats statsKey AutobrrStats_zero s <> None)
     then match GetServiceByInstanceID (db h) instanceId with
          | (Some cfg, None) =>
            if decide (URL cfg = "") then []
            else [EGetReleaseStats (URL cfg) (APIKey cfg)]
          | _ => []
          end
     else []) /\
  spawned (events (GetAutobrrReleaseStats service h c s)) =
    (if decide (instanceId <> "" /\ getError KStats statsKey AutobrrStats_zero s = None)
     then [TRefreshStats instanceId statsKey] else []) /\
  (forall (service' : AutobrrService) (h' : AutobrrHandler) (s' : S),
     List.filter isUpstream
       (events (runTask service' h' (TRefreshStats instanceId statsKey) s')) =
       match GetServiceByInstanceID (db h') instanceId with
       | (Some cfg, None) =>
         if decide (URL cfg = "") then []
         else [EGetReleaseStats (URL cfg) (APIKey cfg)]
       | _ => []
       end) /\
  List.filter isUpstream (events (GetAutobrrIRCStatus service h c s)) =
    (if decide (instanceId <> "" /\ getError KIRC ircKey nil_slice s <> None)
     then match GetServiceByInstanceID (db h) instanceId with
          | (Some cfg, None) =>
            if decide (URL cfg = "") then []
            else [EGetIRCStatus (URL cfg) (APIKey cfg)]
          | _ => []
          end
     else []) /\
  spawned (events (GetAutobrrIRCStatus service h c s)) =
    (if decide (instanceId <> "" /\ getError KIRC ircKey nil_slice s = None)
     then [TRefreshIRC instanceId ircKey] else []) /\
  (forall (service' : AutobrrService) (h' : AutobrrHandler) (s' : S),
     List.filter isUpstream
       (events (runTask service' h' (TRefreshIRC instanceId ircKey) s')) =
       match GetServiceByInstanceID (db h') instanceId with
       | (Some cfg, None) =>
         if decide (URL cfg = "") then []
         else [EGetIRCStatus (URL cfg) (APIKey cfg)]
       | _ => []
       end).
Proof.
  intros instanceId statsKey ircKey. subst statsKey ircKey instanceId.
  destruct (handler_upstream_calls service h c s) as [Hstats Hirc].
  destruct (handlers_spawned service h c s) as [Hgo Hgo'].
  split; [exact Hstats|]. split; [exact Hgo|].
  split; [intros service' h' s'; apply (task_upstream_calls service' h' (TRefreshStats _ _))|].
  split; [exact Hirc|]. split; [exact Hgo'|].
  intros service' h' s'. apply (task_upstream_calls service' h' (TRefreshIRC _ _)).
Qed.


(** * Properties of the route set-up *)

(** With the empty default, [getEnvOrDefault] is [os.Getenv]. *)
Lemma getEnvOrDefault_empty_default (env : gmap string string) (key : string) :
  routes.getEnvOrDefault env key "" = routes.Getenv env key.
Proof.
  unfold routes.getEnvOrDefault, routes.LookupEnv, routes.Getenv.
  destruct (env !! key); reflexivity.
Qed.

(** X11.  [getEnvOrDefault] falls back to the default only for a variable
    that is not set: a variable set to the empty string yields the empty
    string.  With the empty default it agrees with [os.Getenv], and so it
    does for every variable whose value is not empty. *)
Theorem getEnvOrDefault_fallback (env : gmap string string) (key defaultValue : string) :
  (env !! key = None -> routes.getEnvOrDefault env key defaultValue = defaultValue) /\
  (env !! key = Some "" -> routes.getEnvOrDefault env key defaultValue = "") /\
  (routes.Getenv env key <> "" ->
   routes.getEnvOrDefault env key defaultValue = routes.Getenv env key) /\
  routes.getEnvOrDefault env key "" = routes.Getenv env key.
Proof.
  unfold routes.getEnvOrDefault, routes.LookupEnv, routes.Getenv.
  destruct (env !! key) as [v|]; repeat split; congruence.
Qed.

(** X12.  [SetupRoutes] builds an OIDC configuration exactly when issuer,
    client identifier and client secret are all set and not empty; these
    three fields are then the values of the environment, never a default.
    The redirect URL is the value of its variable when that is set, also
    when set to the empty string, and the localhost callback otherwise. *)
Theorem oidc_config_from_env (env : gmap string string) :
  (routes.hasOIDCConfig env = true <->
   routes.Getenv env "OIDC_ISSUER" <> "" /\
   routes.Getenv env "OIDC_CLIENT_ID" <> "" /\
   routes.Getenv env "OIDC_CLIENT_SECRET" <> "") /\
  (routes.hasOIDCConfig env = false <-> routes.SetupRoutes_authConfig env = None) /\
  (forall cfg,
     routes.SetupRoutes_authConfig env = Some cfg ->
     routes.Issuer cfg = routes.Getenv env "OIDC_ISSUER" /\ routes.Issuer cfg <> "" /\
     routes.ClientID cfg = routes.Getenv env "OIDC_CLIENT_ID" /\
     routes.ClientID cfg <> "" /\
     routes.ClientSecret cfg = routes.Getenv env "OIDC_CLIENT_SECRET" /\
     routes.ClientSecret cfg <> "" /\
     routes.RedirectURL cfg =
       match env !! "OIDC_REDIRECT_URL"%string with
       | Some url => url
       | None => "http://localhost:3000/api/auth/callback"
       end).
Proof.
  assert (Hhas : routes.hasOIDCConfig env = true <->
            routes.Getenv env "OIDC_ISSUER" <> "" /\
            routes.Getenv env "OIDC_CLIENT_ID" <> "" /\
            routes.Getenv env "OIDC_CLIENT_SECRET" <> "").
  { unfold routes.hasOIDCConfig.
    rewrite !andb_true_iff, !bool_decide_eq_true. tauto. }
  split; [exact Hhas|]. unfold routes.SetupRoutes_authConfig. split.
  - destruct (routes.hasOIDCConfig env); split; congruence.
  - intros cfg Hcfg. destruct (routes.hasOIDCConfig env); [|discriminate].
    destruct Hhas as [Hhas _]. destruct (Hhas eq_refl) as (Hi & Hc & Hs).
    injection Hcfg as <-. cbn.
    pose proof (getEnvOrDefault_empty_default env) as Hg.
    rewrite !Hg. repeat split; try assumption.
    unfold routes.getEnvOrDefault, routes.LookupEnv.
    destruct (env !! "OIDC_REDIRECT_URL"%string); reflexivity.
Qed.

(** X13.  The Redis address of the cache configuration is empty exactly
    when [REDIS_HOST] is unset or empty; otherwise it is the host, a colon
    and a port that is never empty: [REDIS_PORT], or 6379 when that is unset
    or empty.  The data directory is the directory of the database path.
    The cache type written to the log is "redis" or "memory", and "redis"
    only when the Redis address is set. *)
Theorem redis_address_from_env (filepath_Dir : string -> string)
  (env : gmap string string) :
  let cacheConfig := routes.SetupRoutes_cacheConfig filepath_Dir env in
  let host := routes.Getenv env "REDIS_HOST" in
  let port := routes.Getenv env "REDIS_PORT" in
  routes.DataDir cacheConfig = filepath_Dir (routes.Getenv env "DASHBRR__DB_PATH") /\
  (routes.RedisAddr cacheConfig = "" <-> host = "") /\
  (host <> "" -> port <> "" ->
   routes.RedisAddr cacheConfig = (host +:+ ":") +:+ port) /\
  (host <> "" -> port = "" ->
   routes.RedisAddr cacheConfig = (host +:+ ":") +:+ "6379") /\
  (routes.SetupRoutes_cacheType env = "redis" \/
   routes.SetupRoutes_cacheType env = "memory") /\
  (routes.SetupRoutes_cacheType env = "redis" ->
   routes.RedisAddr cacheConfig <> "" /\ routes.Getenv env "CACHE_TYPE" = "redis").
Proof.
  intros cacheConfig host port. subst cacheConfig.
  unfold routes.SetupRoutes_cacheConfig, routes.SetupRoutes_cacheType.
  fold host port.
  assert (Hne : forall p, (host +:+ ":") +:+ p <> "").
  { intros p. destruct host; cbn; discriminate. }
  assert (Htype : forall addr : string,
            (host <> "" -> addr <> "") ->
            ((if decide (routes.Getenv env "CACHE_TYPE" = "redis" /\ host <> "")
              then "redis" else "memory") = "redis" \/
             (if decide (routes.Getenv env "CACHE_TYPE" = "redis" /\ host <> "")
              then "redis" else "memory") = "memory") /\
            ((if decide (routes.Getenv env "CACHE_TYPE" = "redis" /\ host <> "")
              then "redis" else "memory") = "redis" ->
             addr <> "" /\ routes.Getenv env "CACHE_TYPE" = "redis")).
  { intros addr Haddr.
    destruct (decide (routes.Getenv env "CACHE_TYPE" = "redis" /\ host <> ""))
      as [[Hc Hh]|Hc].
    - split; [left; reflexivity|]. intros _. split; [apply Haddr, Hh|exact Hc].
    - split; [right; reflexivity|]. discriminate. }
  destruct (decide (host <> "")) as [Hh|Hh].
  - destruct (decide (port = "")) as [Hp|Hp]; cbn.
    + split; [reflexivity|].
      split; [split; [intros Heq; destruct (Hne _ Heq)|intros Heq; contradiction]|].
      split; [intros _ Hpn; contradiction|].
      split; [reflexivity|].
      apply Htype. intros _. apply Hne.
    + split; [reflexivity|].
      split; [split; [intros Heq; destruct (Hne _ Heq)|intros Heq; contradiction]|].
      split; [reflexivity|].
      split; [intros _ Hpe; contradiction|].
      apply Htype. intros _. apply Hne.
  - cbn. assert (Hhe : host = "") by (destruct (decide (host = "")); tauto).
    split; [reflexivity|].
    split; [split; [intros _; exact Hhe|reflexivity]|].
    split; [intros Hhn; contradiction|].
    split; [intros Hhn; contradiction|].
    apply Htype. intros Hhn. contradiction.
Qed.

(** X14.  Every group of [SetupRoutes] that installs a rate limiter installs
    exactly one, which is one of its four limiters; authentication, when
    the group requires it, comes before the limiter and the cache
    middleware, when the group has it, comes after.  The groups that are
    limited without requiring authentication use the limiter of the
    authentication routes. *)
Theorem rate_limited_groups_chain {S : Type} (store : S) (oidc : bool) :
  let r := routes.SetupRoutes store oidc in
  Forall (fun g =>
            exists l, l ∈ routes.limiters r /\
              ((routes.uses g = [routes.RateLimit l] /\ l = routes.authRateLimiter r) \/
               routes.uses g = [routes.RequireAuth; routes.RateLimit l] \/
               routes.uses g = [routes.RequireAuth; routes.RateLimit l; routes.Cache]))
         (routes.groups r).
Proof.
  destruct oidc; cbn;
    repeat (apply Forall_cons; split;
            [eexists; split; [|eauto]; cbn; set_solver|]);
    apply Forall_nil_2.
Qed.

(** X15.  No method and path is registered twice, with or without OIDC.
    The chain of every route starts with the four middleware of the engine
    (logger, recovery, CORS, secure headers); except for the health probe
    and the routes under [/api/auth], authentication comes directly after
    them, before any rate limiter, the cache middleware and the handler. *)
Theorem routes_unique_and_protected {S : Type} (store : S) (oidc : bool) :
  NoDup (map fst (routes.allRoutes store oidc)) /\
  Forall (fun r =>
            exists rest,
              r.2 = [routes.OnEngine routes.Logger; routes.OnEngine routes.Recovery;
                     routes.OnEngine routes.SetupCORS; routes.OnEngine routes.Secure]
                    ++ rest /\
              (r.1.2 = "/health" \/ String.prefix "/api/auth" r.1.2 = true \/
               head rest = Some (routes.OnGroup routes.RequireAuth)))
         (routes.allRoutes store oidc).
Proof.
  split.
  - destruct oidc; cbn; apply (bool_decide_unpack _); vm_compute; exact I.
  - destruct oidc; cbn;
      repeat (apply Forall_cons; split;
              [eexists; split; [reflexivity|];
               first [left; reflexivity | right; left; reflexivity
                     | right; right; reflexivity]|]);
      apply Forall_nil_2.
Qed.

(** X16.  Without OIDC settings no route under [/api/auth/oidc] and no
    callback route is registered; every other route is registered the same
    way, with the same middleware, with and without them. *)
Theorem oidc_routes_conditional {S : Type} (store : S) :
  routes.allRoutes store false =
  List.filter
    (fun r => negb (String.prefix "/api/auth/oidc" r.1.2 ||
                    String.eqb r.1.2 "/api/auth/callback"))
    (routes.allRoutes store true).
Proof. reflexivity. Qed.

(** * The further properties on concrete inputs *)

(** The upstream fails with "service not configured" for a configured
    instance: the client sees an empty success. *)
Lemma not_configured_message_hides_failure_witness :
  GetReleaseStats svc_masked "http://autobrr:7474" "k" =
    (7, Some (errorString "service not configured")) /\
  responses (events (GetAutobrrReleaseStats svc_masked h_a (request "a") store_empty)) =
    [(200, BStats (0 : AutobrrStats))] /\
  errorLogs (events (GetAutobrrReleaseStats svc_masked h_a (request "a") store_empty)) = [].
Proof.
  split; [reflexivity|].
  destruct (not_configured_message_hides_failure svc_masked h_a (request "a") store_empty
              (errorString "service not configured")
              ltac:(vm_compute; discriminate) eq_refl) as [Hstats _].
  apply Hstats; [vm_compute; discriminate|].
  right. exists {| InstanceID := "a"; URL := "http://autobrr:7474"; APIKey := "k" |}, 7.
  split; [reflexivity|]. split; [vm_compute; discriminate|reflexivity].
Defined.

(** A refresh that times out leaves the warm store as it was. *)
Lemma refresh_is_silent_witness :
  responses (events (runTask svc_timeout h_a (TRefreshStats "a" "autobrr:stats:a")
                       store_warm)) = [] /\
  final (runTask svc_timeout h_a (TRefreshStats "a" "autobrr:stats:a") store_warm) =
    store_warm.
Proof.
  destruct (refresh_is_silent svc_timeout h_a (TRefreshStats "a" "autobrr:stats:a")
              store_warm) as (Hresp & _ & _ & _ & Hkeep).
  split; [exact Hresp|]. apply Hkeep. vm_compute. discriminate.
Defined.

(** A first request is served by the upstream; the second is served from
    the in-process store although the upstream and the configuration store
    are down by then. *)
Lemma read_through_witness :
  responses (events (GetAutobrrReleaseStats svc_ok h_a (request "a") store_empty)) =
    [(200, BStats (42 : AutobrrStats))] /\
  responses
    (events (GetAutobrrReleaseStats svc_refused h_down (request "a")
               (final (GetAutobrrReleaseStats svc_ok h_a (request "a") store_empty)))) =
    [(200, BStats (42 : AutobrrStats))].
Proof.
  split; [reflexivity|].
  destruct (read_through (S:=MemoryStore) svc_ok h_a (request "a") store_empty
              {| InstanceID := "a"; URL := "http://autobrr:7474"; APIKey := "k" |}
              ltac:(vm_compute; discriminate) eq_refl ltac:(vm_compute; discriminate))
    as [Hstats _].
  destruct (Hstats 42 ltac:(vm_compute; discriminate) eq_refl) as [Hfin Hnext].
  rewrite Hfin.
  apply (Hnext ltac:(vm_compute; reflexivity) ltac:(vm_compute; reflexivity)
               svc_refused h_down).
Defined.

(** The warm store holds 42; a refresh fetches 43; the next request is
    served 43 from the store. *)
Lemma refresh_updates_entry_witness :
  responses (events (GetAutobrrReleaseStats svc_refused h_down (request "a") store_warm)) =
    [(200, BStats (42 : AutobrrStats))] /\
  responses
    (events (GetAutobrrReleaseStats svc_refused h_down (request "a")
               (final (runTask svc_newer h_a (TRefreshStats "a" "autobrr:stats:a")
                         store_warm)))) =
    [(200, BStats (43 : AutobrrStats))].
Proof.
  split; [reflexivity|].
  destruct (refresh_updates_entry (S:=MemoryStore) svc_newer h_a (request "a") store_warm
              {| InstanceID := "a"; URL := "http://autobrr:7474"; APIKey := "k" |}
              ltac:(vm_compute; discriminate) eq_refl ltac:(vm_compute; discriminate))
    as [Hstats _].
  destruct (Hstats 43 eq_refl) as [Hfin Hnext].
  change (statsPrefix +:+ Query (request "a") "instanceId")
    with ("autobrr:stats:a"%string) in Hfin.
  change (Query (request "a") "instanceId") with ("a"%string) in Hfin.
  rewrite Hfin.
  apply (Hnext ltac:(vm_compute; reflexivity) ltac:(vm_compute; reflexivity)
               svc_refused h_down).
Defined.


(** The redirect URL is set to the empty string: no default is used. *)
Lemma getEnvOrDefault_fallback_witness :
  routes.getEnvOrDefault env_oidc "OIDC_REDIRECT_URL"
    "http://localhost:3000/api/auth/callback" = "" /\
  routes.getEnvOrDefault env_redis "OIDC_REDIRECT_URL"
    "http://localhost:3000/api/auth/callback" =
    "http://localhost:3000/api/auth/callback".
Proof.
  destruct (getEnvOrDefault_fallback env_oidc "OIDC_REDIRECT_URL"
              "http://localhost:3000/api/auth/callback") as (_ & Hempty & _).
  destruct (getEnvOrDefault_fallback env_redis "OIDC_REDIRECT_URL"
              "http://localhost:3000/api/auth/callback") as (Hunset & _).
  split; [apply Hempty|apply Hunset]; vm_compute; reflexivity.
Defined.

Lemma oidc_config_from_env_witness :
  routes.SetupRoutes_authConfig env_oidc =
    Some {| routes.Issuer := "https://issuer.example"; routes.ClientID := "dashbrr";
            routes.ClientSecret := "s3cret"; routes.RedirectURL := "" |} /\
  routes.Issuer {| routes.Issuer := "https://issuer.example"; routes.ClientID := "dashbrr";
                   routes.ClientSecret := "s3cret"; routes.RedirectURL := "" |} <> "" /\
  routes.SetupRoutes_authConfig env_redis = None.
Proof.
  destruct (oidc_config_from_env env_oidc) as (_ & _ & Hcfg).
  destruct (oidc_config_from_env env_redis) as (_ & Hnone & _).
  split; [vm_compute; reflexivity|].
  split; [apply (Hcfg _ ltac:(vm_compute; reflexivity))|].
  apply Hnone. vm_compute. reflexivity.
Defined.

Lemma redis_address_from_env_witness :
  routes.RedisAddr (routes.SetupRoutes_cacheConfig (fun p => p) env_redis) =
    "10.0.0.5:6380" /\
  routes.RedisAddr (routes.SetupRoutes_cacheConfig (fun p => p) env_oidc) = "redis:6379" /\
  routes.SetupRoutes_cacheType env_oidc = "memory".
Proof.
  destruct (redis_address_from_env (fun p => p) env_redis) as (_ & _ & Hport & _).
  destruct (redis_address_from_env (fun p => p) env_oidc) as (_ & _ & _ & Hdef & _).
  split; [apply Hport; vm_compute; discriminate|].
  split; [apply Hdef; vm_compute; (discriminate || reflexivity)|].
  vm_compute. reflexivity.
Defined.

(** A timed-out upstream: no [Set], the empty store stays empty. *)
Lemma error_response_leaves_cache_witness :
  cacheSets (events (GetAutobrrReleaseStats svc_timeout h_a (request "a") store_empty)) =
    [] /\
  final (GetAutobrrReleaseStats svc_timeout h_a (request "a") store_empty) = store_empty.
Proof.
  destruct (error_response_leaves_cache svc_timeout h_a (request "a") store_empty
              504 (BError "context deadline exceeded") ltac:(discriminate))
    as [Hstats _].
  apply Hstats. reflexivity.
Defined.
